(** * Mountaintops bridge: a shallow embedding of [frontend/src/App.tsx]

    The file embeds the non-presentational logic of the bridge UI:
    address derivation, the balance query, the import flow with its
    abort-on-failure handler, and the send flow.

    - JavaScript numbers are IEEE-754 binary64 values: [float].
    - Every asynchronous call to the wallet, to the block explorer or to
      the unlocker is a step of an explicit machine; the transcript of
      calls (with their outcomes) is the observable behaviour.
    - A rejected promise or a thrown exception is the [Thrown] outcome.
    - The wallet, the HTTP endpoint, the SDK helpers and the unlocker
      built by [./Importer] are collaborators outside this file: they are
      the fields of an environment [Env]. *)

From Stdlib Require Import Floats ZArith Lia Ascii.
From stdpp Require Import base strings list gmap pretty.

Local Open Scope string_scope.
Local Open Scope list_scope.

(** ** JavaScript values used by the code *)

Inductive Network := mainnet | testnet.

(** A thrown value: an [Error]-like object whose [message] may be absent. *)
Record JsError := { message : option string }.

Inductive Res (A : Type) :=
| Ok (a : A)
| Thrown (e : JsError).
Arguments Ok {A} a.
Arguments Thrown {A} e.

Definition res_map {A B} (f : A -> B) (r : Res A) : Res B :=
  match r with
  | Ok a => Ok (f a)
  | Thrown e => Thrown e
  end.

Definition is_ok {A} (r : Res A) : bool :=
  match r with
  | Ok _ => true
  | Thrown _ => false
  end.

(** Truthiness of a string: every string but the empty one. *)
Definition truthy (s : string) : bool :=
  match s with
  | EmptyString => false
  | String _ _ => true
  end.

(** Truthiness of [string | undefined] and of [string | null]. *)
Definition truthy_opt (o : option string) : bool :=
  match o with
  | Some s => truthy s
  | None => false
  end.

(** [a || b] where [a] is a possibly undefined string. *)
Definition js_or (a : option string) (b : string) : string :=
  match a with
  | Some s => if truthy s then s else b
  | None => b
  end.

(** [s.startsWith(p)] *)
Fixpoint startsWith (s p : string) : bool :=
  match p with
  | EmptyString => true
  | String c p' =>
      match s with
      | EmptyString => false
      | String d s' => if Ascii.eqb c d then startsWith s' p' else false
      end
  end.

(** *** Numbers *)

(** The binary64 value nearest to an integer (ties to even): how an
    integer literal of a JSON payload is read. *)
Definition float_of_Z (z : Z) : float :=
  SF2Prim (binary_normalize prec emax z 0 false).

(** [Math.round]: the nearest integer, ties towards plus infinity; the
    sign of a zero result follows the argument. *)
Definition Math_round (x : float) : float :=
  match Prim2SF x with
  | S754_finite s m e =>
      if (0 <=? e)%Z then x
      else
        let d := (2 ^ (- e))%Z in
        let n := if s then Z.neg m else Z.pos m in
        let r := ((2 * n + d) / (2 * d))%Z in
        if (r =? 0)%Z then (if s then (-0)%float else 0%float)
        else float_of_Z r
  | _ => x
  end.

(** ** Wallet and explorer interfaces ([Wallet.interfaces]) *)

Record GetPublicKeyArgs := {
  protocolID : nat * string;
  keyID : string;
  counterparty : string;
  forSelf : bool
}.

Record CreateActionInput := {
  outpoint : string;
  inputDescription : string;
  unlockingScriptLength : nat
}.

Record CreateActionOutput := {
  lockingScript : string;
  satoshis : float;
  outputDescription : string
}.

Record CreateActionArgs := {
  description : string;
  inputBEEF : option (list Z);
  inputs : option (list CreateActionInput);
  outputs : option (list CreateActionOutput)
}.

Record SignableTransaction := {
  tx : list Z;
  reference : string
}.

Record CreateActionResult := {
  txid : option string;
  signableTransaction : option SignableTransaction
}.

Record SignActionSpend := { unlockingScript : string }.

Record SignActionArgs := {
  sign_reference : string;
  spends : gmap nat SignActionSpend
}.

(** The fields the code reads from the explorer's payloads. *)
Record BalanceJSON := { confirmed : float; unconfirmed : float }.
Record UTXOEntry := { tx_hash : string; tx_pos : nat }.

(** ** Transcript of a run *)

Inductive Event :=
| GetNetwork (r : Res Network)
| GetPublicKey (args : GetPublicKeyArgs) (r : Res string)
| CreateAction (args : CreateActionArgs) (r : Res CreateActionResult)
| SignAction (args : SignActionArgs) (r : Res unit)
| AbortAction (ref : string) (r : Res unit)
| Fetch (url : string) (r : Res unit)
| ResponseJson (r : Res unit)
| UnlockerSign (i : nat) (r : Res string)
| Alert (msg : string)
| AudioPlay.

Definition is_wallet_call (ev : Event) : bool :=
  match ev with
  | GetNetwork _ | GetPublicKey _ _ | CreateAction _ _
  | SignAction _ _ | AbortAction _ _ => true
  | _ => false
  end.

(** An event that leaves the page: a wallet call, an HTTP exchange or a
    call to the unlocker (which itself asks the wallet for a signature). *)
Definition is_external (ev : Event) : bool :=
  match ev with
  | Alert _ | AudioPlay => false
  | _ => true
  end.

Definition abort_ref (ev : Event) : option string :=
  match ev with
  | AbortAction r _ => Some r
  | _ => None
  end.

Definition alert_msg (ev : Event) : option string :=
  match ev with
  | Alert m => Some m
  | _ => None
  end.

Definition fetch_url (ev : Event) : option string :=
  match ev with
  | Fetch u _ => Some u
  | _ => None
  end.

Definition signed_index (ev : Event) : option nat :=
  match ev with
  | UnlockerSign i _ => Some i
  | _ => None
  end.

Definition created_action (ev : Event) : option CreateActionArgs :=
  match ev with
  | CreateAction a _ => Some a
  | _ => None
  end.

Definition submitted_spends (ev : Event) : option SignActionArgs :=
  match ev with
  | SignAction a _ => Some a
  | _ => None
  end.

(** The signable transaction, with its reference, that the wallet
    handed out in answer to a [createAction]. *)
Definition issued (ev : Event) : option SignableTransaction :=
  match ev with
  | CreateAction _ (Ok res) => signableTransaction res
  | _ => None
  end.

Definition sign_failed (ev : Event) : option nat :=
  match ev with
  | UnlockerSign i (Thrown _) => Some i
  | _ => None
  end.

(** The events of the [catch] block. *)
Definition is_catch_event (ev : Event) : bool :=
  match ev with
  | AbortAction _ _ | Alert _ => true
  | _ => false
  end.

Definition abort_calls (t : list Event) : list string := omap abort_ref t.
Definition alerts (t : list Event) : list string := omap alert_msg t.
Definition fetches (t : list Event) : list string := omap fetch_url t.
Definition signer_calls (t : list Event) : list nat := omap signed_index t.
Definition created_actions (t : list Event) : list CreateActionArgs := omap created_action t.
Definition submissions (t : list Event) : list SignActionArgs := omap submitted_spends t.
Definition issued_signable (t : list Event) : option SignableTransaction := head (omap issued t).
Definition issued_reference (t : list Event) : option string := reference <$> issued_signable t.
Definition sign_failures (t : list Event) : list nat := omap sign_failed t.
Definition wallet_calls (t : list Event) : list Event := List.filter is_wallet_call t.
Definition external_calls (t : list Event) : list Event := List.filter is_external t.

(** ** The collaborators *)

Record Env := {
  World : Type;
  (* WalletClient *)
  client_getNetwork : World -> Res Network * World;
  client_getPublicKey : GetPublicKeyArgs -> World -> Res string * World;
  client_createAction : CreateActionArgs -> World -> Res CreateActionResult * World;
  client_signAction : SignActionArgs -> World -> Res unit * World;
  client_abortAction : string -> World -> Res unit * World;
  (* fetch and Response.json, the latter read at the two shapes the code uses *)
  Response : Type;
  fetch : string -> World -> Res Response * World;
  json_balance : Response -> World -> Res BalanceJSON * World;
  json_unspent : Response -> World -> Res (list UTXOEntry) * World;
  (* SDK helpers *)
  PublicKey_toAddress : string -> Network -> Res string;
  P2PKH_lock : string -> Res string;
  Beef_toBinary : list Z;
  Tx : Type;
  Transaction_fromAtomicBEEF : list Z -> Res Tx;
  (* the unlocker returned by [new Importer().unlock(client)]; it holds the
     wallet client, and whatever it asks the wallet while signing happens
     inside this step: the transcript shows the step as [UnlockerSign]
     only, not as wallet events *)
  Script : Type;
  Script_toHex : Script -> string;
  unlocker_sign : Tx -> nat -> World -> Res Script * World;
  (* the language's own conversions *)
  Number : string -> float;
  Number_toString : float -> string
}.

(** ** Component state *)

Record TxRecord := { rec_txid : string; rec_to : string; rec_amount : string }.

Record UiState := {
  mountaintopsAddress : option string;
  balance : float;
  recipientAddress : string;
  amount : string;
  transactions : list TxRecord;
  audioRef : bool
}.

(** The state of a freshly mounted component. *)
Definition initial_ui : UiState :=
  {| mountaintopsAddress := None; balance := (-1)%float;
     recipientAddress := ""; amount := ""; transactions := [];
     audioRef := true |}.

(** The two revisions of [App.tsx]. *)
Inductive Revision := Rev1 | Rev2.

Definition import_inputs (UTXOJson : list UTXOEntry) : list CreateActionInput :=
  map (fun x =>
         {| outpoint := tx_hash x +:+ "." +:+ pretty (tx_pos x);
            inputDescription := "Redeem from the Mountaintops";
            unlockingScriptLength := 108 |})
      UTXOJson.

(** The fixed identity of the bridge key. *)
Definition mountaintops_key : GetPublicKeyArgs :=
  {| protocolID := (1, "mountaintops"); keyID := "1";
     counterparty := "anyone"; forSelf := true |}.

(** The explorer's path segment for a network, as the import flow picks it. *)
Definition wocNet (network : Network) : string :=
  match network with
  | testnet => "test"
  | mainnet => "main"
  end.

Definition woc_url (net address what : string) : string :=
  "https://api.whatsonchain.com/v1/bsv/" +:+ net +:+ "/address/" +:+ address +:+ "/" +:+ what.

(** A [string | null] inside a template literal. *)
Definition interpolate (o : option string) : string :=
  match o with
  | Some s => s
  | None => "null"
  end.

Definition import_failed (e : JsError) : string :=
  "Import failed: " +:+ js_or (message e) "unknown error".

Section Bridge.

Variable E : Env.

(** ** The machine

    [ref_var] is the local [let reference] of [handleImportFunds]: the
    [try] block assigns it and the [catch] block reads it. *)
Record Machine := {
  world : World E;
  ref_var : option string;
  ui : UiState
}.

Definition M (A : Type) : Type := Machine -> Res A * Machine * list Event.

Definition ret {A} (a : A) : M A := fun s => (Ok a, s, []).

Definition throw {A} (e : JsError) : M A := fun s => (Thrown e, s, []).

Definition bind {A B} (m : M A) (k : A -> M B) : M B := fun s =>
  match m s with
  | (Ok a, s1, t1) => let '(r, s2, t2) := k a s1 in (r, s2, (t1 ++ t2)%list)
  | (Thrown e, s1, t1) => (Thrown e, s1, t1)
  end.

Definition try_catch {A} (m : M A) (h : JsError -> M A) : M A := fun s =>
  match m s with
  | (Ok a, s1, t1) => (Ok a, s1, t1)
  | (Thrown e, s1, t1) => let '(r, s2, t2) := h e s1 in (r, s2, (t1 ++ t2)%list)
  end.

Notation "x <- m ;; k" := (bind m (fun x => k))
  (at level 100, m at next level, right associativity).
Notation "m ;;; k" := (bind m (fun _ => k))
  (at level 100, right associativity).

(** A pure SDK helper that may throw. *)
Definition lift {A} (r : Res A) : M A := fun s => (r, s, []).

(** An awaited call to a collaborator; the transcript records [view] of
    its outcome. *)
Definition call {X Y} (ev : Res Y -> Event) (view : X -> Y)
    (f : World E -> Res X * World E) : M X := fun s =>
  let '(r, w) := f (world s) in
  (r, {| world := w; ref_var := ref_var s; ui := ui s |}, [ev (res_map view r)]).

Definition alert (msg : string) : M unit := fun s => (Ok tt, s, [Alert msg]).

Definition get_ui : M UiState := fun s => (Ok (ui s), s, []).

Definition set_ui (f : UiState -> UiState) : M unit := fun s =>
  (Ok tt, {| world := world s; ref_var := ref_var s; ui := f (ui s) |}, []).

Definition get_reference : M (option string) := fun s => (Ok (ref_var s), s, []).

Definition set_reference (r : option string) : M unit := fun s =>
  (Ok tt, {| world := world s; ref_var := r; ui := ui s |}, []).

Definition setMountaintopsAddress (a : string) : M unit :=
  set_ui (fun u => {| mountaintopsAddress := Some a; balance := balance u;
                      recipientAddress := recipientAddress u; amount := amount u;
                      transactions := transactions u; audioRef := audioRef u |}).

Definition setBalance (b : float) : M unit :=
  set_ui (fun u => {| mountaintopsAddress := mountaintopsAddress u; balance := b;
                      recipientAddress := recipientAddress u; amount := amount u;
                      transactions := transactions u; audioRef := audioRef u |}).

Definition setTransactions (f : list TxRecord -> list TxRecord) : M unit :=
  set_ui (fun u => {| mountaintopsAddress := mountaintopsAddress u; balance := balance u;
                      recipientAddress := recipientAddress u; amount := amount u;
                      transactions := f (transactions u); audioRef := audioRef u |}).

Definition setRecipientAddress (a : string) : M unit :=
  set_ui (fun u => {| mountaintopsAddress := mountaintopsAddress u; balance := balance u;
                      recipientAddress := a; amount := amount u;
                      transactions := transactions u; audioRef := audioRef u |}).

Definition setAmount (a : string) : M unit :=
  set_ui (fun u => {| mountaintopsAddress := mountaintopsAddress u; balance := balance u;
                      recipientAddress := recipientAddress u; amount := a;
                      transactions := transactions u; audioRef := audioRef u |}).

(** [x!.field] on a possibly undefined [x]: a [TypeError] when it is. *)
Definition non_null {A} (field : string) (o : option A) : M A :=
  match o with
  | Some a => ret a
  | None =>
      throw {| message :=
        Some ("Cannot read properties of undefined (reading '" +:+ field +:+ "')") |}
  end.

(** ** The operations of [App.tsx] *)

Definition getRealWalletNetwork : M Network :=
  call GetNetwork id (client_getNetwork E).

Definition getMountaintopsAddress : M string :=
  network <- getRealWalletNetwork ;;
  publicKey <- call (GetPublicKey mountaintops_key) id
                 (client_getPublicKey E mountaintops_key) ;;
  lift (PublicKey_toAddress E publicKey network).

Definition fetchBSVBalance (address : string) : M float :=
  network <- getRealWalletNetwork ;;
  let url := woc_url (match network with mainnet => "main" | testnet => "test" end)
                     address "balance" in
  balanceResponse <- call (Fetch url) (fun _ => tt) (fetch E url) ;;
  balanceJSON <- call ResponseJson (fun _ => tt) (json_balance E balanceResponse) ;;
  ret ((confirmed balanceJSON + unconfirmed balanceJSON) / 100000000)%float.

Definition mainnet_mismatch_alert (rev : Revision) : string :=
  match rev with
  | Rev1 => "You are on mainnet but the recipient address does not start with 1!"
  | Rev2 => "You are on mainnet but the recipient address does not look like a mainnet address (starting with 1)!"
  end.

Definition payment_args (lockingScript : string) (amount : float) : CreateActionArgs :=
  {| description := "Shout BSV at an address";
     inputBEEF := None;
     inputs := None;
     outputs := Some [ {| lockingScript := lockingScript;
                          satoshis := Math_round (amount * 100000000)%float;
                          outputDescription := "BSV for recipient address" |} ] |}.

Definition sendBSV (rev : Revision) (to : string) (amount : float) : M (option string) :=
  network <- getRealWalletNetwork ;;
  if match network with mainnet => true | testnet => false end && negb (startsWith to "1")
  then
    alert (mainnet_mismatch_alert rev) ;;;
    ret None
  else
    lockingScript <- lift (P2PKH_lock E to) ;;
    result <- call (CreateAction (payment_args lockingScript amount)) id
                (client_createAction E (payment_args lockingScript amount)) ;;
    ret (txid result).

Definition handleViewAddress : M unit :=
  a <- getMountaintopsAddress ;;
  setMountaintopsAddress a.

Definition handleGetBalance : M unit :=
  u <- get_ui ;;
  match mountaintopsAddress u with
  | Some a =>
      if truthy a then
        fetchedBalance <- fetchBSVBalance a ;;
        setBalance fetchedBalance
      else alert "Get your address first!"
  | None => alert "Get your address first!"
  end.

(** The signing loop [for (let i = 0; i < inputs.length; i++)], by
    recursion on the number of iterations left. *)
Fixpoint sign_inputs (left i : nat) (tx : Tx E) (signActionArgs : SignActionArgs)
    : M SignActionArgs :=
  match left with
  | 0 => ret signActionArgs
  | S left' =>
      script <- call (UnlockerSign i) (Script_toHex E) (unlocker_sign E tx i) ;;
      sign_inputs left' (S i) tx
        {| sign_reference := sign_reference signActionArgs;
           spends := <[ i := {| unlockingScript := Script_toHex E script |} ]>
                       (spends signActionArgs) |}
  end.

Definition import_args (rev : Revision) (inputs : list CreateActionInput) : CreateActionArgs :=
  {| description := "Import from the Mountaintops";
     inputBEEF := Some (match rev with Rev1 => [1%Z] | Rev2 => Beef_toBinary E end);
     inputs := Some inputs;
     outputs := None |}.

(** The body of the [try] block. In the second revision the loop over
    [inputs] that only looks txids up in the empty [Beef] has no effect
    and is not represented. *)
Definition import_try (rev : Revision) (mountaintopsAddress : option string) : M unit :=
  network <- getRealWalletNetwork ;;
  let url := woc_url (wocNet network) (interpolate mountaintopsAddress) "unspent" in
  UTXOResponse <- call (Fetch url) (fun _ => tt) (fetch E url) ;;
  UTXOJson <- call ResponseJson (fun _ => tt) (json_unspent E UTXOResponse) ;;
  let inputs := import_inputs UTXOJson in
  result <- call (CreateAction (import_args rev inputs)) id
              (client_createAction E (import_args rev inputs)) ;;
  st <- non_null "reference" (signableTransaction result) ;;
  set_reference (Some (reference st)) ;;;
  tx <- lift (Transaction_fromAtomicBEEF E (tx st)) ;;
  signActionArgs <-
    sign_inputs (length inputs) 0 tx
      {| sign_reference := reference st; spends := ∅ |} ;;
  call (SignAction signActionArgs) id (client_signAction E signActionArgs) ;;;
  setBalance 0%float ;;;
  match rev with
  | Rev1 => ret tt
  | Rev2 => alert "Funds successfully imported to your real wallet!"
  end.

(** The [catch] block. *)
Definition import_catch (e : JsError) : M unit :=
  reference <- get_reference ;;
  match reference with
  | Some r =>
      if truthy r then call (AbortAction r) id (client_abortAction E r)
      else ret tt
  | None => ret tt
  end ;;;
  alert (import_failed e).

Definition handleImportFunds (rev : Revision) : M unit :=
  u <- get_ui ;;
  if negb (truthy_opt (mountaintopsAddress u)) || (balance u <? 0)%float then
    alert "Get your address and balance first!"
  else if (balance u =? 0)%float then
    alert "No money to import!"
  else
    set_reference None ;;;
    try_catch (import_try rev (mountaintopsAddress u)) import_catch.

Definition handleShoutBSV (rev : Revision) : M unit :=
  u <- get_ui ;;
  if negb (truthy (recipientAddress u)) || negb (truthy (amount u)) then
    alert "Please enter a recipient address AND an amount first!"
  else
    let amt := Number E (amount u) in
    if is_nan amt || (amt <=? 0)%float then
      alert "Please enter a valid amount > 0."
    else
      txid <- sendBSV rev (recipientAddress u) amt ;;
      match txid with
      | Some id =>
          if truthy id then
            (if audioRef u then fun s => (Ok tt, s, [AudioPlay]) else ret tt) ;;;
            alert ("Successfully SHOUTED " +:+ Number_toString E amt
                   +:+ " BSV from your real wallet to " +:+ recipientAddress u
                   +:+ " with absolutely no privacy! TXID: " +:+ id) ;;;
            setTransactions (fun prev =>
              (prev ++ [ {| rec_txid := id; rec_to := recipientAddress u;
                           rec_amount := Number_toString E amt |} ])%list) ;;;
            setRecipientAddress "" ;;;
            setAmount ""
          else ret tt
      | None => ret tt
      end.

End Bridge.

Arguments world {E} _.
Arguments ref_var {E} _.
Arguments ui {E} _.

(** The three components of a run. *)
Definition outcome {E A} (x : Res A * Machine E * list Event) : Res A := x.1.1.
Definition final {E A} (x : Res A * Machine E * list Event) : Machine E := x.1.2.
Definition transcript {E A} (x : Res A * Machine E * list Event) : list Event := x.2.

(** ** A test double of the collaborators

    A stateless world whose answers are fixed by a [Scenario]; it is used
    to run the operations on concrete inputs. *)

(** Decimal literals [-?digits(.digits)?], read as the quotient of two
    exactly represented integers; anything else is [NaN]. *)
Fixpoint decimal_digits (s : string) (seen_dot : bool) (m : Z) (k : nat) : option (Z * nat) :=
  match s with
  | EmptyString => Some (m, k)
  | String c s' =>
      if Ascii.eqb c "."%char then
        if seen_dot then None else decimal_digits s' true m k
      else
        let d := (Z.of_nat (Ascii.nat_of_ascii c) - 48)%Z in
        if ((0 <=? d) && (d <=? 9))%Z then
          decimal_digits s' seen_dot (10 * m + d)%Z (if seen_dot then S k else k)
        else None
  end.

Definition parse_decimal (s : string) : float :=
  let '(neg, body) :=
    match s with
    | String "-"%char s' => (true, s')
    | _ => (false, s)
    end in
  match body with
  | EmptyString => nan
  | _ =>
      match decimal_digits body false 0 0 with
      | Some (m, k) =>
          let q := (float_of_Z m / float_of_Z (10 ^ Z.of_nat k))%float in
          if neg then (- q)%float else q
      | None => nan
      end
  end.

Record Scenario := {
  sc_network : Res Network;
  sc_publicKey : Res string;
  sc_balance : Res BalanceJSON;
  sc_unspent : Res (list UTXOEntry);
  sc_created : Res CreateActionResult;
  sc_sign : nat -> Res string;
  sc_signed : Res unit;
  sc_aborted : Res unit
}.

Definition scripted (sc : Scenario) : Env :=
  {| World := unit;
     client_getNetwork := fun w => (sc_network sc, w);
     client_getPublicKey := fun _ w => (sc_publicKey sc, w);
     client_createAction := fun _ w => (sc_created sc, w);
     client_signAction := fun _ w => (sc_signed sc, w);
     client_abortAction := fun _ w => (sc_aborted sc, w);
     Response := unit;
     fetch := fun _ w => (Ok tt, w);
     json_balance := fun _ w => (sc_balance sc, w);
     json_unspent := fun _ w => (sc_unspent sc, w);
     PublicKey_toAddress := fun pk n =>
       Ok (match n with mainnet => "1" | testnet => "m" end +:+ pk);
     P2PKH_lock := fun to => Ok ("76a914" +:+ to +:+ "88ac");
     Beef_toBinary := [];
     Tx := list Z;
     Transaction_fromAtomicBEEF := fun b => Ok b;
     Script := string;
     Script_toHex := fun s => s;
     unlocker_sign := fun _ i w => (sc_sign sc i, w);
     Number := parse_decimal;
     Number_toString := fun _ => "" |}.

Definition boot (sc : Scenario) (u : UiState) : Machine (scripted sc) :=
  {| world := tt : World (scripted sc); ref_var := None; ui := u |}.

Definition with_address (a : string) (b : float) (u : UiState) : UiState :=
  {| mountaintopsAddress := Some a; balance := b;
     recipientAddress := recipientAddress u; amount := amount u;
     transactions := transactions u; audioRef := audioRef u |}.

Definition with_payment (to amt : string) (u : UiState) : UiState :=
  {| mountaintopsAddress := mountaintopsAddress u; balance := balance u;
     recipientAddress := to; amount := amt;
     transactions := transactions u; audioRef := audioRef u |}.

Definition err (m : string) : JsError := {| message := Some m |}.

(** The wallet hands out reference ["R"]; three outputs are unspent. *)
Definition three_utxos : Scenario :=
  {| sc_network := Ok mainnet;
     sc_publicKey := Ok "02abc";
     sc_balance := Ok {| confirmed := 150000000; unconfirmed := 0 |};
     sc_unspent := Ok [ {| tx_hash := "aa"; tx_pos := 0 |};
                        {| tx_hash := "bb"; tx_pos := 1 |};
                        {| tx_hash := "cc"; tx_pos := 12 |} ];
     sc_created := Ok {| txid := Some "f00d";
                         signableTransaction := Some {| tx := [1%Z]; reference := "R" |} |};
     sc_sign := fun i => Ok ("sig" +:+ pretty i);
     sc_signed := Ok tt;
     sc_aborted := Ok tt |}.

(** The transcript of a signing loop started at index [i], one answer of
    the unlocker after the other. *)
Fixpoint sign_events (i : nat) (rs : list (Res string)) : list Event :=
  match rs with
  | [] => []
  | r :: rs' => UnlockerSign i r :: sign_events (S i) rs'
  end.

Definition unspent_url (n : Network) (addr : option string) : string :=
  woc_url (wocNet n) (interpolate addr) "unspent".

(** The transcript of an import up to the wallet's answer to [createAction]. *)
Definition import_head (E : Env) (rev : Revision) (addr : option string)
    (n : Network) (l : list UTXOEntry) (r : Res CreateActionResult) : list Event :=
  [ GetNetwork (Ok n); Fetch (unspent_url n addr) (Ok tt); ResponseJson (Ok tt);
    CreateAction (import_args E rev (import_inputs l)) r ].

Definition success_alert (rev : Revision) : list Event :=
  match rev with
  | Rev1 => []
  | Rev2 => [Alert "Funds successfully imported to your real wallet!"]
  end.

Definition reset_balance (u : UiState) : UiState :=
  {| mountaintopsAddress := mountaintopsAddress u; balance := 0%float;
     recipientAddress := recipientAddress u; amount := amount u;
     transactions := transactions u; audioRef := audioRef u |}.

Definition undefined_reference : JsError :=
  {| message := Some "Cannot read properties of undefined (reading 'reference')" |}.

(** The possible runs of the [try] block: its outcome, the final value
    of [reference], the final component state and the transcript. *)
Inductive import_run (E : Env) (rev : Revision) (addr : option string) (u : UiState)
  : Res unit -> option string -> UiState -> list Event -> Prop :=
| run_network e :
    import_run E rev addr u (Thrown e) None u [GetNetwork (Thrown e)]
| run_fetch n e :
    import_run E rev addr u (Thrown e) None u
      [GetNetwork (Ok n); Fetch (unspent_url n addr) (Thrown e)]
| run_json n e :
    import_run E rev addr u (Thrown e) None u
      [GetNetwork (Ok n); Fetch (unspent_url n addr) (Ok tt); ResponseJson (Thrown e)]
| run_create n l e :
    import_run E rev addr u (Thrown e) None u (import_head E rev addr n l (Thrown e))
| run_unsignable n l res :
    signableTransaction res = None ->
    import_run E rev addr u (Thrown undefined_reference) None u
      (import_head E rev addr n l (Ok res))
| run_beef n l res st e :
    signableTransaction res = Some st ->
    Transaction_fromAtomicBEEF E (tx st) = Thrown e ->
    import_run E rev addr u (Thrown e) (Some (reference st)) u
      (import_head E rev addr n l (Ok res))
| run_sign n l res st rs e :
    signableTransaction res = Some st ->
    is_ok (Transaction_fromAtomicBEEF E (tx st)) = true ->
    length rs <= length l ->
    last rs = Some (Thrown e) ->
    import_run E rev addr u (Thrown e) (Some (reference st)) u
      (import_head E rev addr n l (Ok res) ++ sign_events 0 rs)
| run_submit n l res st rs args e :
    signableTransaction res = Some st ->
    length rs = length l ->
    Forall (fun r => is_ok r = true) rs ->
    sign_reference args = reference st ->
    dom (spends args) = set_seq 0 (length l) ->
    import_run E rev addr u (Thrown e) (Some (reference st)) u
      (import_head E rev addr n l (Ok res) ++ sign_events 0 rs
         ++ [SignAction args (Thrown e)])
| run_done n l res st rs args :
    signableTransaction res = Some st ->
    length rs = length l ->
    Forall (fun r => is_ok r = true) rs ->
    sign_reference args = reference st ->
    dom (spends args) = set_seq 0 (length l) ->
    import_run E rev addr u (Ok tt) (Some (reference st)) (reset_balance u)
      (import_head E rev addr n l (Ok res) ++ sign_events 0 rs
         ++ SignAction args (Ok tt) :: success_alert rev).

(** ** Auxiliary notions for the statements *)

(** The machine on entry to the [try] block. *)
Definition start_import {E : Env} (s : Machine E) : Machine E :=
  {| world := world s; ref_var := None; ui := ui s |}.

(** The guards of [handleImportFunds]. *)
Definition import_guard (u : UiState) : bool :=
  truthy_opt (mountaintopsAddress u) && negb (balance u <? 0)%float
  && negb (balance u =? 0)%float.

Definition refusal (u : UiState) : string :=
  if negb (truthy_opt (mountaintopsAddress u)) || (balance u <? 0)%float
  then "Get your address and balance first!"
  else "No money to import!".

Definition with_world {E : Env} (s : Machine E) (w : World E) : Machine E :=
  {| world := w; ref_var := ref_var s; ui := ui s |}.

Definition on_mainnet (n : Network) : bool :=
  match n with
  | mainnet => true
  | testnet => false
  end.

(** The component state once a payment has been recorded. *)
Definition record_payment (u : UiState) (r : TxRecord) : UiState :=
  {| mountaintopsAddress := mountaintopsAddress u; balance := balance u;
     recipientAddress := ""; amount := "";
     transactions := transactions u ++ [r]; audioRef := audioRef u |}.

Definition shouted (E : Env) (u : UiState) (id : string) : list Event :=
  (if audioRef u then [AudioPlay] else [])
  ++ [Alert ("Successfully SHOUTED " +:+ Number_toString E (Number E (amount u))
             +:+ " BSV from your real wallet to " +:+ recipientAddress u
             +:+ " with absolutely no privacy! TXID: " +:+ id)].

(** ** The claims of the specification that fail, as they are stated *)

(** C1 as stated, for one run past the guards: once a reference [R]
    has been issued, a failure of the [try] block leads to exactly one
    abort call with [R] and to a report of that failure; without a
    reference there is no abort call. *)
Definition abort_policy_as_stated (E : Env) (rev : Revision) (s : Machine E) : Prop :=
  import_guard (ui s) = true ->
  forall e m1 t1,
    import_try E rev (mountaintopsAddress (ui s)) (start_import s) = (Thrown e, m1, t1) ->
    match issued_reference t1 with
    | Some R =>
        abort_calls (transcript (handleImportFunds E rev s)) = [R] /\
        import_failed e ∈ alerts (transcript (handleImportFunds E rev s))
    | None =>
        abort_calls (transcript (handleImportFunds E rev s)) = [] /\
        import_failed e ∈ alerts (transcript (handleImportFunds E rev s))
    end.

(** C2 as stated: the result is the sum of the two fields. *)
Definition balance_is_sum (E : Env) (address : string) (s : Machine E)
    (payload : BalanceJSON) : Prop :=
  outcome (fetchBSVBalance E address s)
  = Ok (confirmed payload + unconfirmed payload)%float.


(** C9 as stated: the import reaches a collaborator only with an address
    and a balance that is at least zero and not zero. *)
Definition import_needs_positive_balance (E : Env) (rev : Revision) (s : Machine E) : Prop :=
  external_calls (transcript (handleImportFunds E rev s)) <> [] ->
  (exists a, mountaintopsAddress (ui s) = Some a /\ a <> "") /\
  (0 <=? balance (ui s))%float = true /\ (balance (ui s) =? 0)%float = false.

(** C4 as stated: a rejected send makes no wallet call at all. *)
Definition rejected_before_any_wallet_call (E : Env) (rev : Revision)
    (s : Machine E) (to : string) (amount : float) : Prop :=
  wallet_calls (transcript (sendBSV E rev to amount s)) = [].

(** ** Rounding

    [y] is [x] rounded as [Math.round] rounds: a value that is not
    finite, a zero and a finite value with a non-negative exponent (an
    integer) are kept; any other value is [n * 2^e] with [e < 0], and [y]
    is the integer [r] with [r - 1/2 <= n * 2^e < r + 1/2], a zero
    result taking the sign of [x]. *)
Definition nearest_integer_half_up (x y : float) : Prop :=
  match Prim2SF x with
  | S754_finite sg m e =>
      if (0 <=? e)%Z then y = x
      else
        let n := if sg then Z.neg m else Z.pos m in
        exists r : Z,
          ((2 * r - 1) * 2 ^ (- e) <= 2 * n < (2 * r + 1) * 2 ^ (- e))%Z /\
          y = if (r =? 0)%Z then (if sg then (-0)%float else 0%float)
              else float_of_Z r
  | _ => y = x
  end.

(** ** Further scenarios *)

(** The explorer answers with a body that lacks the two fields: each
    reads as [undefined] and the arithmetic on them gives [NaN]. *)
Definition malformed_balance : Scenario :=
  {| sc_network := Ok mainnet;
     sc_publicKey := Ok "02abc";
     sc_balance := Ok {| confirmed := nan; unconfirmed := nan |};
     sc_unspent := Ok [ {| tx_hash := "aa"; tx_pos := 0 |} ];
     sc_created := Ok {| txid := None;
                         signableTransaction := Some {| tx := [1%Z]; reference := "R" |} |};
     sc_sign := fun i => Ok ("sig" +:+ pretty i);
     sc_signed := Ok tt;
     sc_aborted := Ok tt |}.

Definition funded : UiState := with_address "1abc" 1.5 initial_ui.

Definition paying (to amt : string) : UiState := with_payment to amt initial_ui.

(** Signing throws on input 2 of 3 once reference ["R"] has been issued. *)
Definition second_signature_fails (aborted : Res unit) : Scenario :=
  {| sc_network := sc_network three_utxos;
     sc_publicKey := sc_publicKey three_utxos;
     sc_balance := sc_balance three_utxos;
     sc_unspent := sc_unspent three_utxos;
     sc_created := sc_created three_utxos;
     sc_sign := fun i => if Nat.eqb i 1 then Thrown (err "signing failed")
                         else sc_sign three_utxos i;
     sc_signed := Ok tt;
     sc_aborted := aborted |}.

(** As above, but the wallet hands out the empty string as reference. *)
Definition empty_reference : Scenario :=
  {| sc_network := sc_network three_utxos;
     sc_publicKey := sc_publicKey three_utxos;
     sc_balance := sc_balance three_utxos;
     sc_unspent := sc_unspent three_utxos;
     sc_created := Ok {| txid := None;
                         signableTransaction := Some {| tx := [1%Z]; reference := "" |} |};
     sc_sign := sc_sign (second_signature_fails (Ok tt));
     sc_signed := Ok tt;
     sc_aborted := Ok tt |}.

Definition nothing_unspent : Scenario :=
  {| sc_network := Ok testnet;
     sc_publicKey := sc_publicKey three_utxos;
     sc_balance := sc_balance three_utxos;
     sc_unspent := Ok [];
     sc_created := sc_created three_utxos;
     sc_sign := sc_sign three_utxos;
     sc_signed := Ok tt;
     sc_aborted := Ok tt |}.

(** ** The rest of the component *)

(** [s.split('.')[0]]: what precedes the first dot. The second revision
    reads the txid of every declared input this way before it looks it
    up in the (empty) [Beef]. *)
Fixpoint split_dot_first (s : string) : string :=
  match s with
  | EmptyString => EmptyString
  | String c s' =>
      if Ascii.eqb c "."%char then EmptyString else String c (split_dot_first s')
  end.

Fixpoint has_dot (s : string) : bool :=
  match s with
  | EmptyString => false
  | String c s' => if Ascii.eqb c "."%char then true else has_dot s'
  end.

(** The txids the loop of the second revision looks up, in order. *)
Definition looked_up_txids (inputs : list CreateActionInput) : list string :=
  map (fun i => split_dot_first (outpoint i)) inputs.

(** The background music of the second revision: the audio element may
    be missing, and [play()] settles later, resolved or rejected. *)
Record MusicState := { bgAudioRef : bool; isMusicPlaying : bool }.

Inductive MusicEvent :=
| BgPause
| BgPlay (resolved : bool)
| MusicAlert (msg : string).

Definition setIsMusicPlaying (b : bool) (m : MusicState) : MusicState :=
  {| bgAudioRef := bgAudioRef m; isMusicPlaying := b |}.

Definition toggleBackgroundMusic (play_resolves : bool) (m : MusicState)
    : MusicState * list MusicEvent :=
  if negb (bgAudioRef m) then (m, [])
  else if isMusicPlaying m then (setIsMusicPlaying false m, [BgPause])
  else if play_resolves then (setIsMusicPlaying true m, [BgPlay true])
  else (m, [BgPlay false;
            MusicAlert "Failed to play background music (autoplay restrictions)."]).

(** ** Further projections of transcripts *)

Definition key_request (ev : Event) : option GetPublicKeyArgs :=
  match ev with
  | GetPublicKey a _ => Some a
  | _ => None
  end.

Definition key_requests (t : list Event) : list GetPublicKeyArgs := omap key_request t.

Definition network_query (ev : Event) : option (Res Network) :=
  match ev with
  | GetNetwork r => Some r
  | _ => None
  end.

Definition network_queries (t : list Event) : list (Res Network) := omap network_query t.

(** The wallet accepted the signatures: the pending action is final. *)
Definition signed_ok (ev : Event) : bool :=
  match ev with
  | SignAction _ (Ok _) => true
  | _ => false
  end.

Definition finalized (t : list Event) : bool := existsb signed_ok t.

(** The exception a collaborator answered with, if it did. *)
Definition failure (ev : Event) : option JsError :=
  match ev with
  | GetNetwork (Thrown e) | GetPublicKey _ (Thrown e) | CreateAction _ (Thrown e)
  | SignAction _ (Thrown e) | AbortAction _ (Thrown e) | Fetch _ (Thrown e)
  | ResponseJson (Thrown e) | UnlockerSign _ (Thrown e) => Some e
  | _ => None
  end.

Definition failures (t : list Event) : list JsError := omap failure t.

(** The segment of the explorer's path as the balance query picks it. *)
Definition balance_segment (network : Network) : string :=
  match network with
  | mainnet => "main"
  | testnet => "test"
  end.

(** Two component states that differ at most in the balance. *)
Definition same_but_balance (u u' : UiState) : Prop :=
  mountaintopsAddress u' = mountaintopsAddress u /\
  recipientAddress u' = recipientAddress u /\
  amount u' = amount u /\
  transactions u' = transactions u /\
  audioRef u' = audioRef u.

(** Two component states that differ at most in the address. *)
Definition same_but_address (u u' : UiState) : Prop :=
  balance u' = balance u /\
  recipientAddress u' = recipientAddress u /\
  amount u' = amount u /\
  transactions u' = transactions u /\
  audioRef u' = audioRef u.

(** * Properties *)

(** ** Symbolic execution of a run *)

Ltac unfold_ops :=
  unfold handleImportFunds, handleShoutBSV, handleGetBalance, handleViewAddress,
    import_try, import_catch, sendBSV, fetchBSVBalance, getMountaintopsAddress,
    getRealWalletNetwork, non_null, setBalance, setTransactions,
    setRecipientAddress, setAmount, setMountaintopsAddress,
    try_catch, bind, call, lift, alert, ret, throw, get_ui, set_ui,
    get_reference, set_reference, outcome, final, transcript in *.

(** Case analysis on the next answer of a collaborator: the innermost
    scrutinee of the run is replaced by each of its possible values. *)
Ltac next_answer :=
  match goal with
  | |- context [match ?f with _ => _ end] =>
      lazymatch f with
      | context [match _ with _ => _ end] => fail
      | _ => destruct f eqn:?
      end
  end;
  cbn [res_map id app world ref_var ui].

(** ** Projections of transcripts *)

Lemma import_inputs_length (l : list UTXOEntry) :
  length (import_inputs l) = length l.
Proof. unfold import_inputs. apply length_map. Qed.

Lemma import_inputs_declared_length (l : list UTXOEntry) :
  Forall (fun i => unlockingScriptLength i = 108) (import_inputs l).
Proof.
  unfold import_inputs. induction l as [|x l IH]; simpl; constructor; auto.
Qed.

Lemma omap_signed_index_sign_events (rs : list (Res string)) (i : nat) :
  omap signed_index (sign_events i rs) = seq i (length rs).
Proof.
  revert i. induction rs as [|r rs IH]; intros i; simpl; [reflexivity|].
  now rewrite IH.
Qed.

(** A projection that ignores the unlocker sees nothing of a signing loop. *)
Lemma omap_sign_events {B} (f : Event -> option B) (rs : list (Res string)) (i : nat) :
  (forall j r, f (UnlockerSign j r) = None) ->
  omap f (sign_events i rs) = [].
Proof.
  intros Hf. revert i. induction rs as [|r rs IH]; intros i; simpl; [reflexivity|].
  now rewrite Hf, IH.
Qed.



Lemma catch_events_quiet (tail : list Event) :
  Forall (fun ev => is_catch_event ev = true) tail ->
  created_actions tail = [] /\ signer_calls tail = [] /\ submissions tail = [] /\
  sign_failures tail = [] /\ omap issued tail = [] /\ fetches tail = [].
Proof.
  induction 1 as [|ev tail Hev _ IH]; [now repeat split|].
  destruct IH as (H1 & H2 & H3 & H4 & H5 & H6).
  unfold created_actions, signer_calls, submissions, sign_failures, fetches in *.
  destruct ev; try discriminate; cbn; now repeat split.
Qed.

Lemma omap_success_alert {B} (f : Event -> option B) (rev : Revision) :
  (forall m, f (Alert m) = None) ->
  omap f (success_alert rev) = [].
Proof. intros Hf. destruct rev; cbn; [reflexivity | now rewrite Hf]. Qed.


Ltac project :=
  unfold issued_reference, issued_signable, abort_calls, alerts, created_actions,
    submissions, signer_calls, sign_failures, fetches, import_head in *;
  rewrite ?omap_app, ?omap_signed_index_sign_events;
  rewrite ?omap_sign_events by (intros; reflexivity);
  rewrite ?omap_success_alert by (intros; reflexivity);
  cbn [omap list_omap app head fmap option_fmap option_map abort_ref alert_msg
       created_action submitted_spends signed_index fetch_url issued sign_failed];
  rewrite ?omap_success_alert by (intros; reflexivity).

(** ** Runs of the import flow *)

Section Facts.

Variable E : Env.

(** The signing loop asks the unlocker for the indices [i], [i+1], ... in
    turn and stops at the first exception; when it completes, the entries
    [i .. i+left-1] have been added to [spends]. *)
Lemma sign_inputs_run (left : nat) :
  forall (i : nat) (tx : Tx E) (args : SignActionArgs) (s : Machine E) o m t,
  sign_inputs E left i tx args s = (o, m, t) ->
  exists rs : list (Res string),
    t = sign_events i rs /\ ref_var m = ref_var s /\ ui m = ui s /\
    match o with
    | Ok args' =>
        length rs = left /\ Forall (fun r => is_ok r = true) rs /\
        sign_reference args' = sign_reference args /\
        dom (spends args') = dom (spends args) ∪ set_seq i left
    | Thrown e =>
        length rs <= left /\ last rs = Some (Thrown e)
    end.
Proof.
  induction left as [|left IH]; intros i tx args s o m t.
  - cbn. intros [= <- <- <-]. exists []. repeat split; auto. set_solver.
  - cbn [sign_inputs]. unfold bind, call.
    destruct (unlocker_sign E tx i (world s)) as [[sc|e] w] eqn:Hs; cbn [res_map].
    + match goal with |- context [sign_inputs E left (S i) tx ?a ?m] =>
        destruct (sign_inputs E left (S i) tx a m) as [[o' m'] t'] eqn:Hrun
      end.
      apply IH in Hrun. destruct Hrun as (rs & Ht & Hr & Hu & Ho).
      intros [= <- <- <-]. cbn in *.
      exists (Ok (Script_toHex E sc) :: rs). cbn. rewrite Ht.
      repeat split; auto.
      destruct o' as [args'|e'].
      * destruct Ho as (Hl & Hall & Href & Hdom). repeat split; auto.
        rewrite Hdom, dom_insert_L. cbn [set_seq]. set_solver.
      * destruct Ho as (Hl & Hlast). split; [lia|].
        destruct rs; [discriminate|exact Hlast].
    + intros [= <- <- <-]. exists [Thrown e]. cbn. repeat split; auto. lia.
Qed.

Lemma import_try_shape rev addr s o m t :
  ref_var s = None ->
  import_try E rev addr s = (o, m, t) ->
  import_run E rev addr (ui s) o (ref_var m) (ui m) t.
Proof.
  intros Hnone. unfold_ops. cbn [res_map id app].
  repeat next_answer; intros [= <- <- <-]; cbn [ref_var ui]; rewrite ?Hnone;
    repeat match goal with
      | H : sign_inputs _ _ _ _ _ _ = _ |- _ =>
          apply sign_inputs_run in H; cbn [ref_var ui spends sign_reference] in H;
          destruct H as (rs & -> & Hr & Hu & Hs);
          rewrite ?import_inputs_length, ?dom_empty_L, ?(left_id_L ∅ (∪)) in Hs;
          rewrite ?Hr, ?Hu
      end;
    repeat match goal with
      | x : unit |- _ => destruct x
      | H : _ /\ _ |- _ => destruct H
      end;
    econstructor; eauto;
    match goal with
    | H : ?x = Ok _ |- is_ok ?x = true => rewrite H; reflexivity
    end.
Qed.

Lemma handleImportFunds_refused rev s :
  import_guard (ui s) = false ->
  handleImportFunds E rev s = (Ok tt, s, [Alert (refusal (ui s))]).
Proof.
  unfold import_guard, refusal. unfold_ops.
  destruct (truthy_opt (mountaintopsAddress (ui s))),
    (balance (ui s) <? 0)%float, (balance (ui s) =? 0)%float;
    cbn; try discriminate; reflexivity.
Qed.

Lemma handleImportFunds_admitted rev s :
  import_guard (ui s) = true ->
  handleImportFunds E rev s =
  try_catch E (import_try E rev (mountaintopsAddress (ui s))) (import_catch E)
    (start_import s).
Proof.
  unfold import_guard, handleImportFunds, start_import.
  unfold bind at 1. unfold get_ui at 1.
  destruct (truthy_opt (mountaintopsAddress (ui s))),
    (balance (ui s) <? 0)%float, (balance (ui s) =? 0)%float;
    cbn [negb andb orb]; try discriminate.
  intros _. unfold bind, set_reference.
  destruct (try_catch _ _ _) as [[o m] t]. reflexivity.
Qed.

(** The [catch] block: one abort call when [reference] is truthy, then
    the alert unless the abort call threw. *)
Lemma import_catch_run e (m : Machine E) :
  import_catch E e m =
  match ref_var m with
  | Some R =>
      if truthy R then
        match client_abortAction E R (world m) with
        | (Ok _, w) =>
            (Ok tt, {| world := w; ref_var := ref_var m; ui := ui m |},
             [AbortAction R (Ok tt); Alert (import_failed e)])
        | (Thrown e', w) =>
            (Thrown e', {| world := w; ref_var := ref_var m; ui := ui m |},
             [AbortAction R (Thrown e')])
        end
      else (Ok tt, m, [Alert (import_failed e)])
  | None => (Ok tt, m, [Alert (import_failed e)])
  end.
Proof.
  unfold_ops. destruct m as [w0 [R|] u0]; cbn; [|reflexivity].
  destruct (truthy R); cbn; [|reflexivity].
  destruct (client_abortAction E R w0) as [[[]|e'] w]; reflexivity.
Qed.

(** No run of the [try] block calls abort; the local [reference] holds
    exactly what the wallet issued; a failed run shows no alert and
    leaves the component state alone. *)
Lemma import_run_reference rev addr u o r u' t :
  import_run E rev addr u o r u' t ->
  abort_calls t = [] /\ issued_reference t = r /\
  (is_ok o = false -> alerts t = [] /\ u' = u).
Proof.
  destruct 1; project;
    repeat match goal with
      | H : signableTransaction _ = _ |- _ => rewrite H
      end;
    cbn; repeat split; auto; try discriminate.
Qed.

(** A run of the handler past its guards: a run of the [try] block,
    followed by the events of the [catch] block when it failed. *)
Lemma handleImportFunds_run rev s :
  import_guard (ui s) = true ->
  exists o m1 t1 tail,
    import_try E rev (mountaintopsAddress (ui s)) (start_import s) = (o, m1, t1) /\
    import_run E rev (mountaintopsAddress (ui s)) (ui s) o (ref_var m1) (ui m1) t1 /\
    transcript (handleImportFunds E rev s) = t1 ++ tail /\
    Forall (fun ev => is_catch_event ev = true) tail /\
    (is_ok o = true ->
     tail = [] /\ outcome (handleImportFunds E rev s) = o /\
     ui (final (handleImportFunds E rev s)) = ui m1).
Proof.
  intros Hguard. rewrite handleImportFunds_admitted by exact Hguard.
  destruct (import_try E rev (mountaintopsAddress (ui s)) (start_import s))
    as [[o m1] t1] eqn:Htry.
  exists o, m1, t1.
  pose proof (import_try_shape rev _ (start_import s) _ _ _ eq_refl Htry) as Hshape.
  unfold try_catch. rewrite Htry. destruct o as [[]|e].
  - exists []. rewrite app_nil_r. repeat split; auto.
  - rewrite import_catch_run.
    destruct (ref_var m1) as [R|]; [destruct (truthy R)|];
      try destruct (client_abortAction E R (world m1)) as [[[]|e'] w];
      eexists; (split; [reflexivity|]); (split; [exact Hshape|]);
      (split; [reflexivity|]); (split; [|discriminate]);
      repeat constructor.
Qed.

Lemma import_run_starts rev addr u o r u' t :
  import_run E rev addr u o r u' t ->
  exists a rest, t = GetNetwork a :: rest.
Proof. destruct 1; eexists; eexists; reflexivity. Qed.

Lemma import_run_declares rev addr u o r u' t :
  import_run E rev addr u o r u' t ->
  created_actions t = [] \/
  exists l, created_actions t = [import_args E rev (import_inputs l)].
Proof.
  destruct 1; project; cbn; auto; right; eexists; reflexivity.
Qed.

End Facts.

(** ** Comparisons of a balance with zero *)

Lemma float_zero_spec : Prim2SF 0 = S754_zero false.
Proof. reflexivity. Qed.

(** For a balance that is a number, being neither below zero nor equal
    to zero is being above zero. *)
Lemma not_below_not_zero (b : float) :
  is_nan b = false ->
  negb (b <? 0)%float && negb (b =? 0)%float = (0 <? b)%float.
Proof.
  unfold is_nan.
  rewrite !FloatAxioms.ltb_spec, !FloatAxioms.eqb_spec, float_zero_spec.
  destruct (Prim2SF b) as [sg|sg| |sg m e]; try destruct sg; intros Hnan;
    try reflexivity.
  discriminate Hnan.
Qed.

(** * The import flow *)

(** C1 (amended). When the [try] block fails with [e]:
    - if the wallet had issued a non-empty reference [R], the handler
      calls [abortAction] exactly once, with [R], after everything else;
      when that call returns, the handler alerts the original failure [e]
      and completes; when that call itself throws, nothing is retried,
      its exception leaves the handler and no alert is shown;
    - if no reference had been issued (or the issued one is the empty
      string, which the test [if (reference)] takes for absent), no abort
      call is made and the original failure is alerted. *)
Theorem import_failure_aborts_once (E : Env) rev (s : Machine E) e m1 t1 :
  import_guard (ui s) = true ->
  import_try E rev (mountaintopsAddress (ui s)) (start_import s) = (Thrown e, m1, t1) ->
  let run := handleImportFunds E rev s in
  abort_calls t1 = [] /\ alerts t1 = [] /\
  match issued_reference t1 with
  | Some R =>
      if truthy R then
        abort_calls (transcript run) = [R] /\
        match client_abortAction E R (world m1) with
        | (Ok _, _) =>
            transcript run = t1 ++ [AbortAction R (Ok tt); Alert (import_failed e)] /\
            alerts (transcript run) = [import_failed e] /\
            outcome run = Ok tt
        | (Thrown e', _) =>
            transcript run = t1 ++ [AbortAction R (Thrown e')] /\
            alerts (transcript run) = [] /\
            outcome run = Thrown e'
        end
      else
        abort_calls (transcript run) = [] /\
        transcript run = t1 ++ [Alert (import_failed e)] /\
        outcome run = Ok tt
  | None =>
      abort_calls (transcript run) = [] /\
      transcript run = t1 ++ [Alert (import_failed e)] /\
      outcome run = Ok tt
  end.
Proof.
  intros Hguard Htry run. subst run.
  rewrite handleImportFunds_admitted by exact Hguard.
  pose proof (import_try_shape E rev _ (start_import s) _ _ _ eq_refl Htry) as Hshape.
  apply import_run_reference in Hshape as (Habort & Hissued & Hfail).
  destruct (Hfail eq_refl) as [Halerts _].
  split; [exact Habort|]. split; [exact Halerts|].
  unfold try_catch. rewrite Htry, import_catch_run, Hissued.
  destruct (ref_var m1) as [R|]; [destruct (truthy R)|].
  - destruct (client_abortAction E R (world m1)) as [[[]|e'] w];
      unfold transcript, outcome, abort_calls, alerts in *; cbn [fst snd];
      rewrite !omap_app, ?Habort, ?Halerts; cbn; auto.
  - unfold transcript, outcome, abort_calls, alerts in *; cbn [fst snd].
    rewrite !omap_app, ?Habort; auto.
  - unfold transcript, outcome, abort_calls, alerts in *; cbn [fst snd].
    rewrite !omap_app, ?Habort; auto.
Qed.

(** The scenario of the specification: the abort call succeeds, and the
    signing error is what the user is told. *)
Lemma import_failure_aborts_once_witness :
  let sc := second_signature_fails (Ok tt) in
  let s := boot sc funded in
  let r := import_try (scripted sc) Rev1 (mountaintopsAddress (ui s)) (start_import s) in
  import_guard (ui s) = true /\
  r = (Thrown (err "signing failed"), final r, transcript r) /\
  signer_calls (transcript r) = [0; 1] /\
  abort_calls (transcript (handleImportFunds (scripted sc) Rev1 s)) = ["R"] /\
  alerts (transcript (handleImportFunds (scripted sc) Rev1 s))
    = ["Import failed: signing failed"] /\
  outcome (handleImportFunds (scripted sc) Rev1 s) = Ok tt.
Proof.
  intros sc s r.
  pose proof (import_failure_aborts_once (scripted sc) Rev1 s
                (err "signing failed") (final r) (transcript r)
                eq_refl eq_refl) as H.
  vm_compute in H. destruct H as (_ & _ & Habort & _ & Halerts & Hout).
  split; [reflexivity|]. split; [reflexivity|]. split; [reflexivity|].
  split; [exact Habort|]. split; [exact Halerts | exact Hout].
Defined.

(** C1 as stated fails: when the abort call itself throws, the handler
    ends with the abort's exception and the signing failure is never
    reported. *)
Lemma abort_failure_hides_original :
  ~ abort_policy_as_stated
      (scripted (second_signature_fails (Thrown (err "abort failed")))) Rev1
      (boot (second_signature_fails (Thrown (err "abort failed"))) funded).
Proof.
  intros H. specialize (H eq_refl _ _ _ eq_refl).
  vm_compute in H. destruct H as [_ Hin].
  inversion Hin.
Qed.

Example abort_failure_outcome :
  let sc := second_signature_fails (Thrown (err "abort failed")) in
  outcome (handleImportFunds (scripted sc) Rev1 (boot sc funded))
    = Thrown (err "abort failed") /\
  alerts (transcript (handleImportFunds (scripted sc) Rev1 (boot sc funded))) = [].
Proof. split; reflexivity. Qed.

(** An empty reference is falsy: the pending action is left alone. *)
Example empty_reference_is_not_aborted :
  let run := handleImportFunds (scripted empty_reference) Rev1
               (boot empty_reference funded) in
  issued_reference (transcript run) = Some "" /\
  abort_calls (transcript run) = [] /\
  alerts (transcript run) = ["Import failed: signing failed"].
Proof. repeat split. Qed.




(** C6. When the explorer reports no unspent output, the handler still
    asks the wallet once for a pending action, and the request it sends
    declares the empty list of inputs ([inputs: []], with the input BEEF
    of the revision and no output); the unlocker is never called. If the
    wallet issues a signable transaction that parses and accepts the
    empty set of signatures, the run completes: the empty mapping is
    submitted under the issued reference, the balance is reset, nothing
    is aborted and no failure is reported. *)
Theorem import_with_no_utxo (E : Env) rev (s : Machine E) n w1 resp w2 w3 :
  import_guard (ui s) = true ->
  client_getNetwork E (world s) = (Ok n, w1) ->
  fetch E (unspent_url n (mountaintopsAddress (ui s))) w1 = (Ok resp, w2) ->
  json_unspent E resp w2 = (Ok [], w3) ->
  let run := handleImportFunds E rev s in
  let request :=
    {| description := "Import from the Mountaintops";
       inputBEEF := Some (match rev with Rev1 => [1%Z] | Rev2 => Beef_toBinary E end);
       inputs := Some [];
       outputs := None |} in
  created_actions (transcript run) = [request] /\
  signer_calls (transcript run) = [] /\
  forall res w4 st tx' w5,
    client_createAction E request w3 = (Ok res, w4) ->
    signableTransaction res = Some st ->
    Transaction_fromAtomicBEEF E (tx st) = Ok tx' ->
    client_signAction E {| sign_reference := reference st; spends := ∅ |} w4
      = (Ok tt, w5) ->
    run = (Ok tt,
           {| world := w5; ref_var := Some (reference st);
              ui := reset_balance (ui s) |},
           [ GetNetwork (Ok n);
             Fetch (unspent_url n (mountaintopsAddress (ui s))) (Ok tt);
             ResponseJson (Ok tt);
             CreateAction request (Ok res);
             SignAction {| sign_reference := reference st; spends := ∅ |} (Ok tt) ]
           ++ success_alert rev) /\
    abort_calls (transcript run) = [] /\
    alerts (transcript run) = alerts (success_alert rev).
Proof.
  intros Hguard Hnet Hfetch Hjson run request. subst run request.
  change {| description := "Import from the Mountaintops";
            inputBEEF := Some (match rev with Rev1 => [1%Z] | Rev2 => Beef_toBinary E end);
            inputs := Some []; outputs := None |}
    with (import_args E rev []).
  rewrite handleImportFunds_admitted by exact Hguard.
  unfold unspent_url in Hfetch.
  unfold try_catch, import_try, import_catch, getRealWalletNetwork, non_null.
  unfold bind, call, lift, set_reference, get_reference, setBalance, set_ui, alert, ret, throw.
  cbn [start_import world ref_var ui].
  rewrite Hnet; cbn [res_map id world ref_var ui].
  rewrite Hfetch; cbn [res_map id world ref_var ui].
  rewrite Hjson; cbn [res_map id world ref_var ui import_inputs map length sign_inputs].
  unfold ret, transcript, created_actions, signer_calls, abort_calls, alerts.
  repeat next_answer; cbn [fst snd omap list_omap created_action signed_index app].
  all: (split; [reflexivity|]); (split; [reflexivity|]).
  all: intros ? ? ? ? ? [= <- <-] Hst Htx Hsign.
  all: try congruence.
  all: repeat match goal with x : unit |- _ => destruct x end.
  all: match goal with
       | H1 : signableTransaction ?a = Some ?x, H2 : signableTransaction ?a = Some ?y |- _ =>
           assert (x = y) as -> by congruence
       end.
  all: rewrite Hsign in *.
  all: try congruence.
  all: match goal with H : (_, _) = (_, _) |- _ => injection H as -> end.
  all: repeat split.
Qed.

Lemma import_with_no_utxo_witness :
  let E := scripted nothing_unspent in
  let s := boot nothing_unspent funded in
  import_guard (ui s) = true /\
  map inputs (created_actions (transcript (handleImportFunds E Rev2 s))) = [Some []] /\
  signer_calls (transcript (handleImportFunds E Rev2 s)) = [] /\
  outcome (handleImportFunds E Rev2 s) = Ok tt /\
  balance (ui (final (handleImportFunds E Rev2 s))) = 0%float /\
  abort_calls (transcript (handleImportFunds E Rev2 s)) = [].
Proof.
  intros E s.
  destruct (import_with_no_utxo E Rev2 s testnet tt tt tt tt
              eq_refl eq_refl eq_refl eq_refl) as (Hc & Hs & Hdone).
  specialize (Hdone _ tt {| tx := [1%Z]; reference := "R" |} [1%Z] tt
                eq_refl eq_refl eq_refl eq_refl).
  destruct Hdone as (Hdone & _).
  split; [reflexivity|]. split; [rewrite Hc; reflexivity|]. split; [exact Hs|].
  rewrite Hdone. repeat split.
Defined.

(** Being neither below zero nor equal to zero is being above zero or
    not being a number. *)
Lemma not_below_not_zero_cases (b : float) :
  negb (b <? 0)%float && negb (b =? 0)%float = (0 <? b)%float || is_nan b.
Proof.
  unfold is_nan.
  rewrite !FloatAxioms.ltb_spec, !FloatAxioms.eqb_spec, float_zero_spec.
  destruct (Prim2SF b) as [sg|sg| |sg m e]; try destruct sg; try reflexivity.
  all: unfold SFeqb, SFltb, SFcompare;
    rewrite Z.compare_refl, Pos.compare_cont_refl; reflexivity.
Qed.

(** C9 (amended). The handler reaches the wallet, the explorer or the
    unlocker exactly when a non-empty address is held and the balance is
    above zero or is not a number (the two guards, [balance < 0] and
    [balance === 0], are both false on [NaN]). Otherwise it only shows
    an alert, with no HTTP fetch and no wallet call, and leaves the
    machine as it was; this covers a missing address, the initial
    balance [-1] of a balance never fetched, and a zero balance. *)
Theorem import_runs_only_when_funded (E : Env) rev (s : Machine E) :
  let run := handleImportFunds E rev s in
  let u := ui s in
  (external_calls (transcript run) <> [] <->
     (exists a, mountaintopsAddress u = Some a /\ a <> "") /\
     ((0 <? balance u)%float = true \/ is_nan (balance u) = true)) /\
  (external_calls (transcript run) <> [] <->
     (exists a, mountaintopsAddress u = Some a /\ a <> "") /\
     (balance u <? 0)%float = false /\ (balance u =? 0)%float = false) /\
  (is_nan (balance u) = false ->
     (external_calls (transcript run) <> [] <->
        (exists a, mountaintopsAddress u = Some a /\ a <> "") /\
        (0 <? balance u)%float = true)) /\
  (mountaintopsAddress u = None \/ mountaintopsAddress u = Some "" \/
   balance u = (-1)%float \/ (balance u <? 0)%float = true \/
   (balance u =? 0)%float = true ->
     run = (Ok tt, s, [Alert (refusal u)])).
Proof.
  intros run u. subst run u.
  assert (Hg : import_guard (ui s) = true <->
               (exists a, mountaintopsAddress (ui s) = Some a /\ a <> "") /\
               (balance (ui s) <? 0)%float = false /\
               (balance (ui s) =? 0)%float = false).
  { unfold import_guard. rewrite !andb_true_iff, !negb_true_iff.
    destruct (mountaintopsAddress (ui s)) as [[|c a]|]; cbn; split.
    - intros [[? _] _]; discriminate.
    - intros [(a & [= <-] & Ha) _]. now destruct Ha.
    - intros [[_ ?] ?]. split; [eexists; split; [reflexivity|discriminate]|auto].
    - intros [_ [? ?]]. auto.
    - intros [[? _] _]; discriminate.
    - intros [(a & [=] & _) _]. }
  assert (Hrun : external_calls (transcript (handleImportFunds E rev s)) <> [] <->
                 import_guard (ui s) = true).
  { destruct (import_guard (ui s)) eqn:Hguard.
    - split; [reflexivity|intros _].
      destruct (handleImportFunds_run E rev s Hguard)
        as (o & m1 & t1 & tail & _ & Hshape & -> & _).
      apply import_run_starts in Hshape as (a & rest & ->). discriminate.
    - rewrite handleImportFunds_refused by exact Hguard.
      split; [intros H; now destruct H | discriminate]. }
  split.
  { rewrite Hrun, Hg.
    rewrite <- (orb_true_iff (0 <? balance (ui s))%float), <- not_below_not_zero_cases.
    rewrite andb_true_iff, !negb_true_iff. tauto. }
  split; [now rewrite Hrun|]. split.
  - intros Hnan. rewrite Hrun, Hg. rewrite <- (not_below_not_zero _ Hnan).
    rewrite andb_true_iff, !negb_true_iff. tauto.
  - intros Hbad. apply handleImportFunds_refused.
    destruct (import_guard (ui s)) eqn:Hguard; [|reflexivity].
    destruct (proj1 Hg eq_refl) as ((a & Ha & Hne) & Hlt & Heq).
    destruct Hbad as [H|[H|[H|[H|H]]]]; try congruence.
    rewrite H in Hlt. discriminate.
Qed.

(** The amount test of [handleShoutBSV] lets through exactly the amounts
    above zero. *)
Lemma valid_amount_positive (a : float) :
  is_nan a || (a <=? 0)%float = negb (0 <? a)%float.
Proof.
  unfold is_nan.
  rewrite FloatAxioms.ltb_spec, FloatAxioms.leb_spec, FloatAxioms.eqb_spec,
    float_zero_spec.
  destruct (Prim2SF a) as [sg|sg| |sg m e]; try destruct sg; try reflexivity.
  all: unfold SFeqb, SFleb, SFltb, SFcompare;
    rewrite Z.compare_refl, Pos.compare_cont_refl; reflexivity.
Qed.

(** C9 as stated fails: the explorer's answer lacks the two fields, the
    balance handler stores [NaN], and the import then runs, up to the
    submission of the signatures, on a balance that is not at least
    zero. *)
Lemma import_runs_on_malformed_balance :
  ~ import_needs_positive_balance (scripted malformed_balance) Rev1
      (final (handleGetBalance (scripted malformed_balance)
                (boot malformed_balance (with_address "1abc" (-1) initial_ui)))).
Proof.
  intros H. destruct H as (_ & Hle & _).
  - vm_compute. discriminate.
  - vm_compute in Hle. discriminate Hle.
Qed.

Example malformed_balance_run :
  let s1 := final (handleGetBalance (scripted malformed_balance)
                     (boot malformed_balance (with_address "1abc" (-1) initial_ui))) in
  is_nan (balance (ui s1)) = true /\
  finalized (transcript (handleImportFunds (scripted malformed_balance) Rev1 s1)) = true.
Proof. split; reflexivity. Qed.

(** A balance that is not a number passes both comparisons. *)
Example import_runs_on_nan_balance :
  import_guard (with_address "1abc" nan initial_ui) = true.
Proof. reflexivity. Qed.

(** C10. Every input that the import flow declares to the wallet
    carries the unlocking-script length 108: the declared inputs are the
    image of the fetched entries, one input per entry, and the length
    does not depend on the entry. *)
Theorem declared_unlocking_script_length (E : Env) rev (s : Machine E) :
  Forall (fun a => exists l : list UTXOEntry,
            inputs a = Some (import_inputs l) /\
            length (import_inputs l) = length l /\
            Forall (fun i => unlockingScriptLength i = 108) (import_inputs l))
         (created_actions (transcript (handleImportFunds E rev s))).
Proof.
  destruct (import_guard (ui s)) eqn:Hguard.
  2:{ rewrite handleImportFunds_refused by exact Hguard. constructor. }
  destruct (handleImportFunds_run E rev s Hguard)
    as (o & m1 & t1 & tail & _ & Hshape & -> & Htail & _).
  apply catch_events_quiet in Htail as (Hc & _).
  unfold created_actions in *. rewrite omap_app, Hc, app_nil_r.
  apply import_run_declares in Hshape as [Hnone|[l Hl]];
    unfold created_actions in *.
  - rewrite Hnone. constructor.
  - rewrite Hl. repeat constructor. exists l.
    split; [reflexivity|].
    split; [apply import_inputs_length | apply import_inputs_declared_length].
Qed.

Example declared_lengths_three_utxos :
  created_actions (transcript (handleImportFunds (scripted three_utxos) Rev1
                                 (boot three_utxos funded)))
  = [ {| description := "Import from the Mountaintops";
         inputBEEF := Some [1%Z];
         inputs := Some [ {| outpoint := "aa.0";
                             inputDescription := "Redeem from the Mountaintops";
                             unlockingScriptLength := 108 |};
                          {| outpoint := "bb.1";
                             inputDescription := "Redeem from the Mountaintops";
                             unlockingScriptLength := 108 |};
                          {| outpoint := "cc.12";
                             inputDescription := "Redeem from the Mountaintops";
                             unlockingScriptLength := 108 |} ];
         outputs := None |} ].
Proof. reflexivity. Qed.

(** * Address derivation *)

(** C7. Two derivations to which the wallet gives the same network and
    the same public key return the same address (or fail alike): the
    result is the SDK's conversion of that key for that network. Nothing
    is cached: whatever the state of the component, each derivation asks
    the wallet again for its network and for the key of the fixed
    protocol and key identifiers, and stores nothing. *)
Theorem address_is_deterministic (E : Env) (s1 s2 : Machine E) n pk w1 w1' w2 w2' :
  client_getNetwork E (world s1) = (Ok n, w1) ->
  client_getPublicKey E mountaintops_key w1 = (Ok pk, w1') ->
  client_getNetwork E (world s2) = (Ok n, w2) ->
  client_getPublicKey E mountaintops_key w2 = (Ok pk, w2') ->
  outcome (getMountaintopsAddress E s1) = PublicKey_toAddress E pk n /\
  outcome (getMountaintopsAddress E s2) = outcome (getMountaintopsAddress E s1) /\
  transcript (getMountaintopsAddress E s1)
    = [GetNetwork (Ok n); GetPublicKey mountaintops_key (Ok pk)] /\
  transcript (getMountaintopsAddress E s2)
    = [GetNetwork (Ok n); GetPublicKey mountaintops_key (Ok pk)] /\
  ui (final (getMountaintopsAddress E s1)) = ui s1 /\
  ui (final (getMountaintopsAddress E s2)) = ui s2.
Proof.
  intros Hn1 Hk1 Hn2 Hk2. unfold_ops. cbn [world ref_var ui].
  rewrite Hn1, Hn2. cbn [res_map id world ref_var ui].
  rewrite Hk1, Hk2. cbn [res_map id world ref_var ui].
  destruct (PublicKey_toAddress E pk n); cbn; repeat split.
Qed.

Lemma address_is_deterministic_witness :
  let E := scripted three_utxos in
  let s1 := boot three_utxos initial_ui in
  let s2 := final (handleViewAddress E s1) in
  mountaintopsAddress (ui s2) = Some "102abc" /\
  outcome (getMountaintopsAddress E s1) = Ok "102abc" /\
  outcome (getMountaintopsAddress E s2) = outcome (getMountaintopsAddress E s1) /\
  transcript (getMountaintopsAddress E s2)
    = [GetNetwork (Ok mainnet); GetPublicKey mountaintops_key (Ok "02abc")].
Proof.
  intros E s1 s2.
  destruct (address_is_deterministic E s1 s2 mainnet "02abc" tt tt tt tt
              eq_refl eq_refl eq_refl eq_refl) as (H1 & H2 & _ & H4 & _).
  split; [reflexivity|]. split; [exact H1|]. split; [exact H2 | exact H4].
Defined.

(** * The balance query *)

Lemma fetchBSVBalance_run (E : Env) (s : Machine E) address n w1 resp w2 payload w3 :
  let url := woc_url (match n with mainnet => "main" | testnet => "test" end)
                     address "balance" in
  client_getNetwork E (world s) = (Ok n, w1) ->
  fetch E url w1 = (Ok resp, w2) ->
  json_balance E resp w2 = (Ok payload, w3) ->
  fetchBSVBalance E address s
  = (Ok ((confirmed payload + unconfirmed payload) / 100000000)%float,
     {| world := w3; ref_var := ref_var s; ui := ui s |},
     [GetNetwork (Ok n); Fetch url (Ok tt); ResponseJson (Ok tt)]).
Proof.
  intros url Hn Hf Hj. subst url. unfold_ops. cbn [world ref_var ui].
  rewrite Hn. cbn [res_map id world ref_var ui].
  rewrite Hf. cbn [res_map id world ref_var ui].
  rewrite Hj. reflexivity.
Qed.

(** The payload [{confirmed: 150000000, unconfirmed: 0}] yields 1.5, not
    the sum 150000000. *)
Lemma balance_is_not_the_sum :
  ~ balance_is_sum (scripted three_utxos) "1abc" (boot three_utxos initial_ui)
      {| confirmed := 150000000; unconfirmed := 0 |}.
Proof.
  unfold balance_is_sum. intros H.
  apply (f_equal (fun r => match r with
                           | Ok x => (x =? 1.5)%float
                           | Thrown _ => false
                           end)) in H.
  vm_compute in H. discriminate H.
Qed.

(** C2 (amended). Once the wallet has answered with the network, the
    balance query issues exactly one HTTP GET, to the explorer's balance
    endpoint for the address under the path segment of that network
    ([main] for mainnet, [test] otherwise), reads the fields [confirmed]
    and [unconfirmed] of the answer, and returns their sum divided by
    100000000: an amount in BSV, not in satoshis. *)
Theorem balance_query (E : Env) (s : Machine E) address n w1 resp w2 payload w3 :
  let url := woc_url (match n with mainnet => "main" | testnet => "test" end)
                     address "balance" in
  client_getNetwork E (world s) = (Ok n, w1) ->
  fetch E url w1 = (Ok resp, w2) ->
  json_balance E resp w2 = (Ok payload, w3) ->
  fetches (transcript (fetchBSVBalance E address s)) = [url] /\
  transcript (fetchBSVBalance E address s)
    = [GetNetwork (Ok n); Fetch url (Ok tt); ResponseJson (Ok tt)] /\
  outcome (fetchBSVBalance E address s)
    = Ok ((confirmed payload + unconfirmed payload) / 100000000)%float.
Proof.
  intros url Hn Hf Hj. subst url.
  rewrite (fetchBSVBalance_run E s address n w1 resp w2 payload w3 Hn Hf Hj).
  repeat split.
Qed.

Lemma balance_query_witness :
  let E := scripted three_utxos in
  let s := boot three_utxos initial_ui in
  fetches (transcript (fetchBSVBalance E "1abc" s))
    = ["https://api.whatsonchain.com/v1/bsv/main/address/1abc/balance"] /\
  outcome (fetchBSVBalance E "1abc" s) = Ok 1.5%float.
Proof.
  intros E s.
  destruct (balance_query E s "1abc" mainnet tt tt tt
              {| confirmed := 150000000; unconfirmed := 0 |} tt
              eq_refl eq_refl eq_refl) as (Hf & _ & Ho).
  split; [exact Hf | exact Ho].
Defined.

(** C3. For a payload whose fields are the integers [c] and [u], the
    balance query returns the binary64 quotient of their sum by
    100000000; for 150000000 and 0 this is 1.5. *)
Theorem balance_in_bsv (E : Env) (s : Machine E) address n w1 resp w2 w3 (c u : Z) :
  client_getNetwork E (world s) = (Ok n, w1) ->
  fetch E (woc_url (match n with mainnet => "main" | testnet => "test" end)
                   address "balance") w1 = (Ok resp, w2) ->
  json_balance E resp w2
    = (Ok {| confirmed := float_of_Z c; unconfirmed := float_of_Z u |}, w3) ->
  outcome (fetchBSVBalance E address s)
    = Ok ((float_of_Z c + float_of_Z u) / 100000000)%float /\
  (c = 150000000%Z -> u = 0%Z ->
   outcome (fetchBSVBalance E address s) = Ok 1.5%float).
Proof.
  intros Hn Hf Hj.
  rewrite (fetchBSVBalance_run E s address n w1 resp w2 _ w3 Hn Hf Hj).
  cbn [outcome fst confirmed unconfirmed].
  split; [reflexivity|].
  intros -> ->. reflexivity.
Qed.

Lemma balance_in_bsv_witness :
  let E := scripted three_utxos in
  outcome (fetchBSVBalance E "1abc" (boot three_utxos initial_ui)) = Ok 1.5%float.
Proof.
  intros E.
  destruct (balance_in_bsv E (boot three_utxos initial_ui) "1abc" mainnet tt tt tt tt
              150000000 0 eq_refl eq_refl eq_refl) as [_ H].
  exact (H eq_refl eq_refl).
Defined.

(** * The send flow *)

Lemma sendBSV_run (E : Env) rev (s : Machine E) to amount n w1 :
  client_getNetwork E (world s) = (Ok n, w1) ->
  sendBSV E rev to amount s =
  if on_mainnet n && negb (startsWith to "1") then
    (Ok None, with_world s w1, [GetNetwork (Ok n); Alert (mainnet_mismatch_alert rev)])
  else
    match P2PKH_lock E to with
    | Ok ls =>
        match client_createAction E (payment_args ls amount) w1 with
        | (Ok res, w2) =>
            (Ok (txid res), with_world s w2,
             [GetNetwork (Ok n); CreateAction (payment_args ls amount) (Ok res)])
        | (Thrown e, w2) =>
            (Thrown e, with_world s w2,
             [GetNetwork (Ok n); CreateAction (payment_args ls amount) (Thrown e)])
        end
    | Thrown e => (Thrown e, with_world s w1, [GetNetwork (Ok n)])
    end.
Proof.
  intros Hn. unfold_ops. unfold with_world, on_mainnet. cbn [world ref_var ui].
  rewrite Hn. cbn [res_map id world ref_var ui].
  destruct (match n with mainnet => true | testnet => false end
            && negb (startsWith to "1")); [reflexivity|].
  destruct (P2PKH_lock E to) as [ls|e]; [|reflexivity].
  cbn [world ref_var ui].
  destruct (client_createAction E (payment_args ls amount) w1) as [[res|e] w2];
    reflexivity.
Qed.

(** On mainnet, the send to an address that starts with [m] is rejected
    only after the wallet has been asked for its network. *)
Lemma rejection_follows_network_query :
  ~ rejected_before_any_wallet_call (scripted three_utxos) Rev1
      (boot three_utxos initial_ui) "mtXWDB6k5yC5v7TcwKZHB89SUp85yCKshy" 0.01.
Proof. unfold rejected_before_any_wallet_call. vm_compute. discriminate. Qed.

(** C4 (amended). When the wallet reports mainnet:
    - a recipient address that does not start with ["1"] is rejected:
      the caller is alerted and gets no transaction id, and the only
      wallet call of the run is the network query that precedes the
      check; no action is created;
    - a recipient address that starts with ["1"] is not rejected: no
      alert is shown, the locking script is built and, unless that
      throws, the wallet is asked once to create the action paying it. *)
Theorem mainnet_prefix_policy (E : Env) rev (s : Machine E) to amount w1 :
  client_getNetwork E (world s) = (Ok mainnet, w1) ->
  let run := sendBSV E rev to amount s in
  (startsWith to "1" = false ->
     run = (Ok None, with_world s w1,
            [GetNetwork (Ok mainnet); Alert (mainnet_mismatch_alert rev)]) /\
     wallet_calls (transcript run) = [GetNetwork (Ok mainnet)] /\
     created_actions (transcript run) = []) /\
  (startsWith to "1" = true ->
     alerts (transcript run) = [] /\
     match P2PKH_lock E to with
     | Ok ls => created_actions (transcript run) = [payment_args ls amount]
     | Thrown e => outcome run = Thrown e /\ created_actions (transcript run) = []
     end).
Proof.
  intros Hn run. subst run. rewrite (sendBSV_run E rev s to amount mainnet w1 Hn).
  cbn [on_mainnet andb]. split; intros ->; cbn [negb].
  - repeat split.
  - destruct (P2PKH_lock E to) as [ls|e]; [|repeat split].
    destruct (client_createAction E (payment_args ls amount) w1) as [[res|e] w2];
      repeat split.
Qed.

Lemma mainnet_prefix_policy_witness :
  let E := scripted three_utxos in
  let s := boot three_utxos initial_ui in
  wallet_calls (transcript (sendBSV E Rev1 "mtXWDB6k5yC5v7TcwKZHB89SUp85yCKshy" 0.01 s))
    = [GetNetwork (Ok mainnet)] /\
  outcome (sendBSV E Rev1 "mtXWDB6k5yC5v7TcwKZHB89SUp85yCKshy" 0.01 s) = Ok None /\
  created_actions (transcript (sendBSV E Rev1 "1A1zP1eP5QGefi2DMPTfTL5SLmv7DivfNa" 0.01 s))
    = [payment_args "76a9141A1zP1eP5QGefi2DMPTfTL5SLmv7DivfNa88ac" 0.01].
Proof.
  intros E s.
  destruct (mainnet_prefix_policy E Rev1 s "mtXWDB6k5yC5v7TcwKZHB89SUp85yCKshy"
              0.01 tt eq_refl) as [Hbad _].
  destruct (mainnet_prefix_policy E Rev1 s "1A1zP1eP5QGefi2DMPTfTL5SLmv7DivfNa"
              0.01 tt eq_refl) as [_ Hgood].
  destruct (Hbad eq_refl) as (Hrun & Hcalls & _).
  destruct (Hgood eq_refl) as (_ & Hcreated).
  split; [exact Hcalls|]. split; [rewrite Hrun; reflexivity | exact Hcreated].
Defined.

Lemma handleShoutBSV_run (E : Env) rev (s : Machine E) :
  let u := ui s in
  let amt := Number E (amount u) in
  truthy (recipientAddress u) = true ->
  truthy (amount u) = true ->
  handleShoutBSV E rev s =
  if (0 <? amt)%float then
    match sendBSV E rev (recipientAddress u) amt s with
    | (Ok (Some id), s1, t1) =>
        if truthy id then
          (Ok tt,
           {| world := world s1; ref_var := ref_var s1;
              ui := record_payment (ui s1)
                      {| rec_txid := id; rec_to := recipientAddress u;
                         rec_amount := Number_toString E amt |} |},
           t1 ++ shouted E u id)
        else (Ok tt, s1, t1)
    | (Ok None, s1, t1) => (Ok tt, s1, t1)
    | (Thrown e, s1, t1) => (Thrown e, s1, t1)
    end
  else (Ok tt, s, [Alert "Please enter a valid amount > 0."]).
Proof.
  intros u amt Hto Hamt. subst u amt.
  unfold handleShoutBSV, shouted, record_payment. unfold bind at 1, get_ui.
  cbn zeta. rewrite Hto, Hamt, valid_amount_positive. cbn [negb orb].
  destruct (0 <? Number E (amount (ui s)))%float; cbn [negb]; [|reflexivity].
  unfold bind at 1.
  destruct (sendBSV E rev (recipientAddress (ui s)) (Number E (amount (ui s))) s)
    as [[[[id|]|e] s1] t1]; try (cbn; rewrite ?app_nil_r; reflexivity).
  destruct (truthy id); [|cbn; rewrite ?app_nil_r; reflexivity].
  unfold_ops. destruct (audioRef (ui s)); cbn; reflexivity.
Qed.

(** [Math_round] rounds to the nearest integer, ties towards plus
    infinity. *)
Lemma Math_round_spec (x : float) : nearest_integer_half_up x (Math_round x).
Proof.
  unfold nearest_integer_half_up, Math_round.
  destruct (Prim2SF x) as [sg|sg| |sg m e]; try reflexivity.
  destruct (0 <=? e)%Z eqn:He; [reflexivity|].
  apply Z.leb_gt in He.
  cbn zeta. set (n := if sg then Z.neg m else Z.pos m). set (d := (2 ^ (- e))%Z).
  assert (Hd : (0 < d)%Z) by (apply Z.pow_pos_nonneg; lia).
  exists ((2 * n + d) / (2 * d))%Z. split; [|reflexivity].
  pose proof (Z.div_mod (2 * n + d) (2 * d) ltac:(lia)) as Hdiv.
  pose proof (Z.mod_pos_bound (2 * n + d) (2 * d) ltac:(lia)) as Hmod.
  nia.
Qed.

(** C8. With a recipient and an amount entered, the send flow
    - rejects an amount that is not above zero (not a number included)
      with an alert, before any wallet call or any other effect;
    - otherwise, when the network check passes and the locking script is
      built, asks the wallet once to create an action whose only output
      pays [Math.round(amount * 100000000)] satoshis to that script: the
      binary64 product rounded to the nearest integer, ties towards plus
      infinity; [sendBSV] returns the transaction id of the wallet's
      answer, which the handler records. *)
Theorem send_validates_and_pays (E : Env) rev (s : Machine E) :
  let u := ui s in
  let amt := Number E (amount u) in
  truthy (recipientAddress u) = true ->
  truthy (amount u) = true ->
  ((0 <? amt)%float = false ->
     handleShoutBSV E rev s = (Ok tt, s, [Alert "Please enter a valid amount > 0."])) /\
  ((0 <? amt)%float = true ->
     forall n w1 ls res w2,
       client_getNetwork E (world s) = (Ok n, w1) ->
       on_mainnet n && negb (startsWith (recipientAddress u) "1") = false ->
       P2PKH_lock E (recipientAddress u) = Ok ls ->
       client_createAction E (payment_args ls amt) w1 = (Ok res, w2) ->
       outputs (payment_args ls amt)
         = Some [ {| lockingScript := ls;
                     satoshis := Math_round (amt * 100000000)%float;
                     outputDescription := "BSV for recipient address" |} ] /\
       (exists sat,
          outputs (payment_args ls amt)
            = Some [ {| lockingScript := ls; satoshis := sat;
                        outputDescription := "BSV for recipient address" |} ] /\
          nearest_integer_half_up (amt * 100000000)%float sat) /\
       sendBSV E rev (recipientAddress u) amt s
         = (Ok (txid res), with_world s w2,
            [GetNetwork (Ok n); CreateAction (payment_args ls amt) (Ok res)]) /\
       wallet_calls (transcript (handleShoutBSV E rev s))
         = [GetNetwork (Ok n); CreateAction (payment_args ls amt) (Ok res)] /\
       (forall id, txid res = Some id -> truthy id = true ->
          transactions (ui (final (handleShoutBSV E rev s)))
          = transactions u ++ [ {| rec_txid := id; rec_to := recipientAddress u;
                                   rec_amount := Number_toString E amt |} ])).
Proof.
  intros u amt Hto Hamt. subst u amt.
  rewrite (handleShoutBSV_run E rev s Hto Hamt).
  split; intros Hpos; rewrite Hpos; [reflexivity|].
  intros n w1 ls res w2 Hn Hmain Hlock Hcreate.
  pose proof (sendBSV_run E rev s (recipientAddress (ui s))
                (Number E (amount (ui s))) n w1 Hn) as Hsend.
  rewrite Hmain, Hlock, Hcreate in Hsend. rewrite Hsend.
  split; [reflexivity|].
  split; [eexists; split; [reflexivity | apply Math_round_spec]|].
  split; [reflexivity|].
  unfold shouted.
  destruct (txid res) as [id|]; [destruct (truthy id) eqn:Hid|];
    destruct (audioRef (ui s)); cbn;
    (split; [reflexivity|]); intros id' [= <-] Hid'; congruence.
Qed.

Lemma send_validates_and_pays_witness :
  let E := scripted three_utxos in
  let good := boot three_utxos (paying "1A1zP1eP5QGefi2DMPTfTL5SLmv7DivfNa" "0.01") in
  let bad := boot three_utxos (paying "1A1zP1eP5QGefi2DMPTfTL5SLmv7DivfNa" "-3") in
  let nonsense := boot three_utxos (paying "1A1zP1eP5QGefi2DMPTfTL5SLmv7DivfNa" "abc") in
  let odd := boot three_utxos (paying "1A1zP1eP5QGefi2DMPTfTL5SLmv7DivfNa" "0.123456789") in
  map (fun a => map satoshis (default [] (outputs a)))
      (created_actions (transcript (handleShoutBSV E Rev1 odd)))
    = [[12345679%float]] /\
  transcript (handleShoutBSV E Rev1 bad) = [Alert "Please enter a valid amount > 0."] /\
  transcript (handleShoutBSV E Rev1 nonsense) = [Alert "Please enter a valid amount > 0."] /\
  created_actions (transcript (sendBSV E Rev1 "1A1zP1eP5QGefi2DMPTfTL5SLmv7DivfNa" 0.01 good))
    = [ {| description := "Shout BSV at an address"; inputBEEF := None; inputs := None;
           outputs := Some [ {| lockingScript := "76a9141A1zP1eP5QGefi2DMPTfTL5SLmv7DivfNa88ac";
                                satoshis := 1000000;
                                outputDescription := "BSV for recipient address" |} ] |} ] /\
  outcome (sendBSV E Rev1 "1A1zP1eP5QGefi2DMPTfTL5SLmv7DivfNa" 0.01 good) = Ok (Some "f00d").
Proof.
  intros E good bad nonsense odd.
  split; [reflexivity|].
  destruct (send_validates_and_pays E Rev1 bad eq_refl eq_refl) as [Hbad _].
  destruct (send_validates_and_pays E Rev1 nonsense eq_refl eq_refl) as [Hnon _].
  destruct (send_validates_and_pays E Rev1 good eq_refl eq_refl) as [_ Hgood].
  destruct (Hgood eq_refl mainnet tt
              "76a9141A1zP1eP5QGefi2DMPTfTL5SLmv7DivfNa88ac"
              {| txid := Some "f00d";
                 signableTransaction := Some {| tx := [1%Z]; reference := "R" |} |}
              tt eq_refl eq_refl eq_refl eq_refl) as (_ & _ & Hsend & _).
  split; [rewrite (Hbad eq_refl); reflexivity|].
  split; [rewrite (Hnon eq_refl); reflexivity|].
  change (Number E (amount (ui good))) with 0.01%float in Hsend.
  change (recipientAddress (ui good)) with "1A1zP1eP5QGefi2DMPTfTL5SLmv7DivfNa" in Hsend.
  rewrite Hsend. split; reflexivity.
Defined.

(** * Further properties of the import flow *)

Lemma existsb_signed_ok_sign_events (rs : list (Res string)) (i : nat) :
  existsb signed_ok (sign_events i rs) = false.
Proof. revert i. induction rs as [|r rs IH]; intros i; cbn; auto. Qed.

Lemma existsb_signed_ok_catch (tail : list Event) :
  Forall (fun ev => is_catch_event ev = true) tail ->
  existsb signed_ok tail = false.
Proof.
  induction 1 as [|ev tail Hev _ IH]; [reflexivity|].
  destruct ev; try discriminate; cbn; exact IH.
Qed.

Lemma catch_events_silent (tail : list Event) :
  Forall (fun ev => is_catch_event ev = true) tail ->
  key_requests tail = [] /\ network_queries tail = [].
Proof.
  induction 1 as [|ev tail Hev _ [IH1 IH2]]; [now split|].
  unfold key_requests, network_queries in *.
  destruct ev; try discriminate; cbn; now split.
Qed.

(** A run of the [try] block ends well exactly when the wallet accepted
    the signatures, and only then is the balance reset. *)
Lemma import_run_finalized (E : Env) rev addr u o r u' t :
  import_run E rev addr u o r u' t ->
  finalized t = is_ok o /\ u' = (if is_ok o then reset_balance u else u).
Proof.
  destruct 1; unfold finalized, import_head;
    rewrite ?existsb_app, ?existsb_signed_ok_sign_events; cbn;
    rewrite ?existsb_signed_ok_sign_events; auto.
Qed.

(** What the [catch] block adds to a failed run. *)
Lemma handleImportFunds_outcomes (E : Env) rev (s : Machine E) :
  import_guard (ui s) = true ->
  exists o (m1 : Machine E) t1 tail,
    import_run E rev (mountaintopsAddress (ui s)) (ui s) o (ref_var m1) (ui m1) t1 /\
    transcript (handleImportFunds E rev s) = t1 ++ tail /\
    ui (final (handleImportFunds E rev s)) = ui m1 /\
    Forall (fun ev => is_catch_event ev = true) tail /\
    (is_ok o = true -> tail = [] /\ outcome (handleImportFunds E rev s) = o) /\
    (abort_calls tail = [] \/
     exists R, ref_var m1 = Some R /\ truthy R = true /\ abort_calls tail = [R]).
Proof.
  intros Hguard. rewrite handleImportFunds_admitted by exact Hguard.
  destruct (import_try E rev (mountaintopsAddress (ui s)) (start_import s))
    as [[o m1] t1] eqn:Htry.
  exists o, m1, t1.
  pose proof (import_try_shape E rev _ (start_import s) _ _ _ eq_refl Htry) as Hshape.
  unfold try_catch. rewrite Htry. destruct o as [[]|e].
  - exists []. rewrite app_nil_r. repeat split; auto.
  - rewrite import_catch_run.
    destruct (ref_var m1) as [R|] eqn:Href; [destruct (truthy R) eqn:HR|];
      try destruct (client_abortAction E R (world m1)) as [[[]|e'] w];
      eexists; (split; [exact Hshape|]); (split; [reflexivity|]);
      (split; [reflexivity|]); (split; [repeat constructor|]);
      (split; [discriminate|]); cbn; eauto.
Qed.

(** X1. Whatever happens, an import leaves the component state alone
    except for the balance, which it resets to zero exactly when the
    wallet accepted the signatures: a refused or failed import changes
    nothing on screen. *)
Theorem import_resets_balance_only_when_final (E : Env) rev (s : Machine E) :
  ui (final (handleImportFunds E rev s))
  = if finalized (transcript (handleImportFunds E rev s))
    then reset_balance (ui s) else ui s.
Proof.
  destruct (import_guard (ui s)) eqn:Hguard.
  2:{ rewrite handleImportFunds_refused by exact Hguard. reflexivity. }
  destruct (handleImportFunds_outcomes E rev s Hguard)
    as (o & m1 & t1 & tail & Hshape & -> & -> & Htail & _).
  apply import_run_finalized in Hshape as [Hfin ->].
  unfold finalized in *.
  rewrite existsb_app, Hfin, (existsb_signed_ok_catch _ Htail), orb_false_r.
  reflexivity.
Qed.

(** X2. A pending action that the wallet has finalized is never aborted:
    when the signatures were accepted the handler ends well, makes no
    abort call and reports no failure. *)
Theorem finalized_import_is_never_aborted (E : Env) rev (s : Machine E) :
  finalized (transcript (handleImportFunds E rev s)) = true ->
  abort_calls (transcript (handleImportFunds E rev s)) = [] /\
  outcome (handleImportFunds E rev s) = Ok tt /\
  alerts (transcript (handleImportFunds E rev s)) = alerts (success_alert rev).
Proof.
  destruct (import_guard (ui s)) eqn:Hguard.
  2:{ rewrite handleImportFunds_refused by exact Hguard. discriminate. }
  destruct (handleImportFunds_outcomes E rev s Hguard)
    as (o & m1 & t1 & tail & Hshape & Ht & _ & Htail & Hok & _).
  rewrite Ht. intros Hfin.
  pose proof (import_run_finalized _ _ _ _ _ _ _ _ Hshape) as [Hfin1 _].
  unfold finalized in *.
  rewrite existsb_app, Hfin1, (existsb_signed_ok_catch _ Htail), orb_false_r in Hfin.
  destruct (Hok Hfin) as [-> Hout]. rewrite app_nil_r. rewrite Hout.
  destruct Hshape; try discriminate.
  split; [|split; [reflexivity|]]; project; reflexivity.
Qed.

Lemma finalized_import_is_never_aborted_witness :
  let run := handleImportFunds (scripted three_utxos) Rev2 (boot three_utxos funded) in
  finalized (transcript run) = true /\
  abort_calls (transcript run) = [] /\
  alerts (transcript run) = ["Funds successfully imported to your real wallet!"].
Proof.
  intros run.
  destruct (finalized_import_is_never_aborted (scripted three_utxos) Rev2
              (boot three_utxos funded) eq_refl) as (Ha & _ & Hal).
  split; [reflexivity|]. split; [exact Ha | exact Hal].
Defined.

(** X3. The wallet only ever hears the reference it issued itself: the
    signatures are submitted under the reference of the wallet's answer
    to [createAction], and an abort call names that same reference,
    which is then not the empty string. *)
Theorem references_are_the_issued_one (E : Env) rev (s : Machine E) :
  let t := transcript (handleImportFunds E rev s) in
  (forall args, args ∈ submissions t ->
     issued_reference t = Some (sign_reference args)) /\
  (forall R, R ∈ abort_calls t -> issued_reference t = Some R /\ R <> "").
Proof.
  intros t. subst t.
  destruct (import_guard (ui s)) eqn:Hguard.
  2:{ rewrite handleImportFunds_refused by exact Hguard.
      split; intros x Hin; inversion Hin. }
  destruct (handleImportFunds_outcomes E rev s Hguard)
    as (o & m1 & t1 & tail & Hshape & -> & _ & Htail & _ & Habort).
  pose proof (import_run_reference _ _ _ _ _ _ _ _ Hshape) as (Hab1 & Hiss & _).
  pose proof (catch_events_quiet _ Htail) as (_ & _ & Hsub & _ & Hi & _).
  assert (Hissued : issued_reference (t1 ++ tail) = ref_var m1).
  { rewrite <- Hiss. unfold issued_reference, issued_signable.
    now rewrite omap_app, Hi, app_nil_r. }
  split.
  - intros args Hin. rewrite Hissued.
    unfold submissions in *. rewrite omap_app, Hsub, app_nil_r in Hin.
    clear Hissued Hiss Hab1 Habort. revert Hin.
    destruct Hshape; project; intros Hin; try (inversion Hin; fail);
      apply list_elem_of_singleton in Hin as ->; congruence.
  - intros R Hin. rewrite Hissued.
    unfold abort_calls in *. rewrite omap_app, Hab1 in Hin. cbn in Hin.
    destruct Habort as [Hnone|(R' & Href & HR & Hone)].
    + rewrite Hnone in Hin. inversion Hin.
    + rewrite Hone in Hin. apply list_elem_of_singleton in Hin as ->.
      split; [exact Href|]. intros ->. discriminate.
Qed.

(** X4. Among the calls the import handler makes itself, there is at
    most one network query, one fetch, one [createAction], one
    [signAction] and one [abortAction] per run. (What the unlocker asks
    the wallet through the client it was given is part of its own steps
    and is not counted here.) *)
Theorem import_calls_at_most_once (E : Env) rev (s : Machine E) :
  let t := transcript (handleImportFunds E rev s) in
  length (network_queries t) <= 1 /\ length (fetches t) <= 1 /\
  length (created_actions t) <= 1 /\ length (submissions t) <= 1 /\
  length (abort_calls t) <= 1.
Proof.
  intros t. subst t.
  destruct (import_guard (ui s)) eqn:Hguard.
  2:{ rewrite handleImportFunds_refused by exact Hguard. cbn. repeat split; lia. }
  destruct (handleImportFunds_outcomes E rev s Hguard)
    as (o & m1 & t1 & tail & Hshape & -> & _ & Htail & _ & Habort).
  pose proof (import_run_reference _ _ _ _ _ _ _ _ Hshape) as (Hab1 & _).
  pose proof (catch_events_quiet _ Htail) as (Hc & _ & Hsub & _ & _ & Hf).
  pose proof (catch_events_silent _ Htail) as (Hk & Hn).
  assert (Hab : length (abort_calls (t1 ++ tail)) <= 1).
  { unfold abort_calls in *. rewrite omap_app, Hab1. cbn.
    destruct Habort as [->|(R & _ & _ & ->)]; cbn; lia. }
  clear Hab1 Habort.
  unfold network_queries, key_requests, fetches, created_actions, submissions in *.
  rewrite !omap_app, Hc, Hsub, Hf, ?Hk, Hn, !app_nil_r.
  destruct Hshape; unfold import_head;
    rewrite ?omap_app, ?omap_sign_events by (intros; reflexivity);
    cbn; rewrite ?omap_sign_events by (intros; reflexivity);
    rewrite ?omap_success_alert by (intros; reflexivity);
    cbn; repeat split; auto; lia.
Qed.

Lemma import_try_signs_parsed (E : Env) rev addr (s : Machine E) o m t :
  import_try E rev addr s = (o, m, t) ->
  signer_calls t <> [] ->
  signer_calls (take 4 t) = [] /\
  exists st, issued_signable (take 4 t) = Some st /\
             is_ok (Transaction_fromAtomicBEEF E (tx st)) = true.
Proof.
  unfold_ops. cbn [res_map id app].
  repeat next_answer; intros [= <- <- <-];
    repeat match goal with
      | H : sign_inputs _ _ _ _ _ _ = _ |- _ =>
          apply sign_inputs_run in H; destruct H as (rs & -> & _)
      end;
    unfold signer_calls, issued_signable; cbn;
    rewrite ?omap_app, ?omap_signed_index_sign_events; cbn;
    intros Hne; try (now destruct Hne);
    (split; [reflexivity|]);
    match goal with
    | H : signableTransaction _ = Some ?st |- _ =>
        rewrite H; exists st; split; [reflexivity|]
    end;
    match goal with
    | H : ?x = Ok _ |- is_ok ?x = true => rewrite H; reflexivity
    end.
Qed.

(** X5. The unlocker is only called on a transaction the wallet has
    issued: if any input was signed, the fourth event of the run is the
    wallet's answer to [createAction] with a signable transaction that
    parses, and no call to the unlocker precedes it. *)
Theorem signing_follows_issuance (E : Env) rev (s : Machine E) :
  let t := transcript (handleImportFunds E rev s) in
  signer_calls t <> [] ->
  signer_calls (take 4 t) = [] /\
  exists st, issued_signable (take 4 t) = Some st /\
             is_ok (Transaction_fromAtomicBEEF E (tx st)) = true.
Proof.
  intros t. subst t.
  destruct (import_guard (ui s)) eqn:Hguard.
  2:{ rewrite handleImportFunds_refused by exact Hguard. intros H. now destruct H. }
  destruct (handleImportFunds_run E rev s Hguard)
    as (o & m1 & t1 & tail & Htry & _ & -> & Htail & _).
  pose proof (catch_events_quiet _ Htail) as (_ & Hs & _).
  intros Hne.
  assert (Hne1 : signer_calls t1 <> []).
  { unfold signer_calls in *. now rewrite omap_app, Hs, app_nil_r in Hne. }
  destruct (import_try_signs_parsed E rev _ _ _ _ _ Htry Hne1) as (Hpre & st & Hst & Hok).
  assert (Hlen : 4 <= length t1).
  { destruct t1 as [|? [|? [|? [|? ?]]]]; cbn; try lia;
      unfold issued_signable in Hst; cbn in Hst;
      rewrite ?app_nil_r in *; unfold signer_calls in *.
    all: exfalso; apply Hne1; exact Hpre. }
  rewrite take_app_le by exact Hlen. eauto.
Qed.

Lemma signing_follows_issuance_witness :
  let E := scripted (second_signature_fails (Ok tt)) in
  let t := transcript (handleImportFunds E Rev1
                         (boot (second_signature_fails (Ok tt)) funded)) in
  signer_calls t = [0; 1] /\
  issued_reference (take 4 t) = Some "R" /\ signer_calls (take 4 t) = [].
Proof.
  intros E t.
  destruct (signing_follows_issuance E Rev1
              (boot (second_signature_fails (Ok tt)) funded)) as (Hpre & st & Hst & _).
  - discriminate.
  - split; [reflexivity|]. split; [reflexivity | exact Hpre].
Defined.

(** X6. After an import that the wallet finalized, a further import is
    refused on the spot, in either revision: the balance on screen is
    zero, so the handler only says that there is no money to import. *)
Theorem second_import_is_refused (E : Env) rev rev' (s : Machine E) :
  finalized (transcript (handleImportFunds E rev s)) = true ->
  handleImportFunds E rev' (final (handleImportFunds E rev s))
  = (Ok tt, final (handleImportFunds E rev s), [Alert "No money to import!"]).
Proof.
  intros Hfin.
  destruct (import_guard (ui s)) eqn:Hguard.
  2:{ rewrite handleImportFunds_refused in Hfin by exact Hguard. discriminate. }
  destruct (handleImportFunds_outcomes E rev s Hguard)
    as (o & m1 & t1 & tail & Hshape & Ht & Hui & Htail & _).
  apply import_run_finalized in Hshape as [Hfin1 Hu].
  rewrite Ht in Hfin. unfold finalized in *.
  rewrite existsb_app, Hfin1, (existsb_signed_ok_catch _ Htail), orb_false_r in Hfin.
  rewrite Hfin in Hu. rewrite Hu in Hui.
  rewrite handleImportFunds_refused.
  - unfold refusal. rewrite Hui. cbn [reset_balance mountaintopsAddress balance].
    unfold import_guard in Hguard.
    destruct (truthy_opt (mountaintopsAddress (ui s))); [reflexivity|discriminate].
  - unfold import_guard. rewrite Hui. cbn [reset_balance mountaintopsAddress balance].
    now rewrite andb_false_r.
Qed.

Lemma second_import_is_refused_witness :
  let E := scripted three_utxos in
  let s1 := final (handleImportFunds E Rev1 (boot three_utxos funded)) in
  finalized (transcript (handleImportFunds E Rev1 (boot three_utxos funded))) = true /\
  transcript (handleImportFunds E Rev2 s1) = [Alert "No money to import!"].
Proof.
  intros E s1. split; [reflexivity|].
  unfold s1.
  rewrite (second_import_is_refused E Rev1 Rev2 (boot three_utxos funded) eq_refl).
  reflexivity.
Defined.

Lemma wocNet_balance_segment (n : Network) : wocNet n = balance_segment n.
Proof. destruct n; reflexivity. Qed.

(** X7. The only HTTP request of an import is the unspent-output query
    for the address held by the component, on the network the wallet has
    just reported; the path segment is the one the balance query uses
    for that network, although the two pick it by different tests. *)
Theorem import_fetches_unspent_of_held_address (E : Env) rev (s : Machine E) a :
  mountaintopsAddress (ui s) = Some a ->
  forall url, url ∈ fetches (transcript (handleImportFunds E rev s)) ->
  exists n,
    network_queries (transcript (handleImportFunds E rev s)) = [Ok n] /\
    url = woc_url (balance_segment n) a "unspent".
Proof.
  intros Ha url.
  destruct (import_guard (ui s)) eqn:Hguard.
  2:{ rewrite handleImportFunds_refused by exact Hguard. intros Hin. inversion Hin. }
  destruct (handleImportFunds_outcomes E rev s Hguard)
    as (o & m1 & t1 & tail & Hshape & -> & _ & Htail & _).
  pose proof (catch_events_quiet _ Htail) as (_ & _ & _ & _ & _ & Hf).
  pose proof (catch_events_silent _ Htail) as (_ & Hn).
  unfold fetches, network_queries in *. rewrite !omap_app, Hf, Hn, !app_nil_r.
  rewrite Ha in Hshape.
  destruct Hshape; unfold import_head, unspent_url;
    rewrite ?omap_app, ?omap_sign_events by (intros; reflexivity);
    cbn; rewrite ?omap_sign_events by (intros; reflexivity);
    rewrite ?omap_success_alert by (intros; reflexivity);
    cbn; intros Hin; try (inversion Hin; fail);
    apply list_elem_of_singleton in Hin as ->;
    exists n; rewrite wocNet_balance_segment; split; reflexivity.
Qed.

Lemma import_fetches_unspent_of_held_address_witness :
  let E := scripted nothing_unspent in
  fetches (transcript (handleImportFunds E Rev1 (boot nothing_unspent funded)))
  = ["https://api.whatsonchain.com/v1/bsv/test/address/1abc/unspent"] /\
  exists n,
    network_queries (transcript (handleImportFunds E Rev1 (boot nothing_unspent funded)))
      = [Ok n] /\
    "https://api.whatsonchain.com/v1/bsv/test/address/1abc/unspent"
      = woc_url (balance_segment n) "1abc" "unspent".
Proof.
  intros E. split; [reflexivity|].
  apply (import_fetches_unspent_of_held_address E Rev1 (boot nothing_unspent funded)
           "1abc" eq_refl).
  apply list_elem_of_singleton. reflexivity.
Defined.

(** * Outpoints *)

Lemma split_dot_first_app (h rest : string) :
  has_dot h = false -> split_dot_first (h +:+ String "."%char rest) = h.
Proof.
  induction h as [|c h IH]; [reflexivity|].
  change (String c h +:+ String "."%char rest)
    with (String c (h +:+ String "."%char rest)).
  cbn [split_dot_first has_dot].
  destruct (Ascii.eqb c ".") eqn:Hc; [discriminate|].
  intros Hh. now rewrite IH.
Qed.

Lemma dotted_inj (h h' rest rest' : string) :
  has_dot h = false -> has_dot h' = false ->
  h +:+ String "."%char rest = h' +:+ String "."%char rest' -> h = h' /\ rest = rest'.
Proof.
  revert h'. induction h as [|c h IH]; intros [|c' h'];
    change (String ?a ?x +:+ ?y) with (String a (x +:+ y));
    change (EmptyString +:+ ?y) with y;
    cbn [has_dot].
  - intros _ _ [= ->]. auto.
  - destruct (Ascii.eqb c' ".") eqn:Hc; [discriminate|].
    intros _ _ [= <- _]. discriminate.
  - destruct (Ascii.eqb c ".") eqn:Hc; [discriminate|].
    intros _ _ [= -> _]. discriminate.
  - destruct (Ascii.eqb c ".") eqn:Hc; [discriminate|].
    destruct (Ascii.eqb c' ".") eqn:Hc'; [discriminate|].
    intros Hh Hh' [= -> Heq]. destruct (IH h' Hh Hh' Heq) as [-> ->]. auto.
Qed.

(** X8. Unspent outputs whose transaction hashes contain no dot are
    declared under pairwise distinct outpoints: the outpoint string
    determines the hash and the output index it was built from. *)
Theorem outpoints_are_distinct (l : list UTXOEntry) :
  Forall (fun x => has_dot (tx_hash x) = false) l ->
  NoDup l ->
  NoDup (map outpoint (import_inputs l)).
Proof.
  unfold import_inputs. rewrite map_map. cbn [outpoint].
  intros Hdot Hnd. induction Hnd as [|x l Hx Hnd IH]; cbn; [constructor|].
  inversion Hdot as [|? ? Hxdot Hldot]; subst.
  constructor; [|auto].
  intros Hin. apply list_elem_of_fmap in Hin as (y & Heq & Hy).
  apply Hx.
  assert (Hydot : has_dot (tx_hash y) = false).
  { rewrite Forall_forall in Hldot. apply Hldot. exact Hy. }
  change ("." +:+ ?r) with (String "."%char r) in Heq.
  destruct (dotted_inj _ _ _ _ Hxdot Hydot Heq) as [Hh Hp].
  apply (inj pretty) in Hp.
  destruct x, y; cbn in *; subst. exact Hy.
Qed.

Lemma outpoints_are_distinct_witness :
  let l := [ {| tx_hash := "aa"; tx_pos := 0 |}; {| tx_hash := "aa"; tx_pos := 1 |};
             {| tx_hash := "cc"; tx_pos := 12 |} ] in
  NoDup (map outpoint (import_inputs l)) /\
  map outpoint (import_inputs l) = ["aa.0"; "aa.1"; "cc.12"].
Proof.
  intros l. split; [|reflexivity].
  apply outpoints_are_distinct.
  - repeat constructor.
  - repeat constructor; intros Hin;
      repeat (apply elem_of_cons in Hin as [Hin|Hin]; [discriminate|]);
      inversion Hin.
Defined.

(** X9. For transaction hashes without a dot, the txids that the second
    revision reads back from the declared outpoints (by splitting at the
    dot) are the hashes of the fetched outputs, in the same order. *)
Theorem looked_up_txids_are_the_hashes (l : list UTXOEntry) :
  Forall (fun x => has_dot (tx_hash x) = false) l ->
  looked_up_txids (import_inputs l) = map tx_hash l.
Proof.
  unfold looked_up_txids, import_inputs. rewrite map_map. cbn [outpoint].
  induction 1 as [|x l Hx _ IH]; cbn; [reflexivity|].
  change ("." +:+ pretty (tx_pos x)) with (String "."%char (pretty (tx_pos x))).
  now rewrite split_dot_first_app, IH.
Qed.

Lemma looked_up_txids_are_the_hashes_witness :
  looked_up_txids (import_inputs [ {| tx_hash := "aa"; tx_pos := 0 |};
                                   {| tx_hash := "cc"; tx_pos := 12 |} ])
  = ["aa"; "cc"].
Proof.
  apply (looked_up_txids_are_the_hashes
           [ {| tx_hash := "aa"; tx_pos := 0 |}; {| tx_hash := "cc"; tx_pos := 12 |} ]).
  repeat constructor.
Defined.

(** * The address and balance handlers *)

(** X10. The balance handler without an address (none, or the empty
    string) only alerts. In every run it changes nothing of the
    component but the balance, changes nothing at all when it fails,
    fetches at most once, and never creates, signs or aborts an action
    nor asks for a key. *)
Theorem get_balance_frame (E : Env) (s : Machine E) :
  let run := handleGetBalance E s in
  (truthy_opt (mountaintopsAddress (ui s)) = false ->
     run = (Ok tt, s, [Alert "Get your address first!"])) /\
  same_but_balance (ui s) (ui (final run)) /\
  (is_ok (outcome run) = false -> ui (final run) = ui s) /\
  length (fetches (transcript run)) <= 1 /\
  created_actions (transcript run) = [] /\ submissions (transcript run) = [] /\
  abort_calls (transcript run) = [] /\ key_requests (transcript run) = [].
Proof.
  intros run. subst run. unfold same_but_balance.
  unfold_ops. unfold fetches, created_actions, submissions, abort_calls, key_requests.
  cbn [res_map id app].
  repeat next_answer; cbn; repeat split; auto; try discriminate; try lia;
    intros; congruence.
Qed.

(** X11. The address handler stores the derived address and touches
    nothing else; when the wallet or the conversion fails, the exception
    leaves the handler and the component keeps its state. The only key
    it ever requests is the fixed bridge key, and it never fetches nor
    creates an action. *)
Theorem view_address_frame (E : Env) (s : Machine E) :
  let run := handleViewAddress E s in
  same_but_address (ui s) (ui (final run)) /\
  match outcome run with
  | Ok _ =>
      exists n pk a,
        transcript run = [GetNetwork (Ok n); GetPublicKey mountaintops_key (Ok pk)] /\
        PublicKey_toAddress E pk n = Ok a /\
        mountaintopsAddress (ui (final run)) = Some a
  | Thrown _ => ui (final run) = ui s
  end /\
  Forall (fun k => k = mountaintops_key) (key_requests (transcript run)) /\
  fetches (transcript run) = [] /\ created_actions (transcript run) = [].
Proof.
  intros run. subst run. unfold same_but_address.
  unfold_ops. unfold fetches, created_actions, key_requests.
  cbn [res_map id app].
  repeat next_answer; cbn in *; try discriminate;
    repeat split; auto; repeat constructor.
  all: eexists; eexists; eexists; repeat split; eassumption.
Qed.

Lemma handleViewAddress_run (E : Env) (s : Machine E) n pk a w1 w2 :
  client_getNetwork E (world s) = (Ok n, w1) ->
  client_getPublicKey E mountaintops_key w1 = (Ok pk, w2) ->
  PublicKey_toAddress E pk n = Ok a ->
  handleViewAddress E s
  = (Ok tt,
     {| world := w2; ref_var := ref_var s;
        ui := {| mountaintopsAddress := Some a; balance := balance (ui s);
                 recipientAddress := recipientAddress (ui s); amount := amount (ui s);
                 transactions := transactions (ui s); audioRef := audioRef (ui s) |} |},
     [GetNetwork (Ok n); GetPublicKey mountaintops_key (Ok pk)]).
Proof.
  intros Hn Hk Ha. unfold_ops. cbn [world ref_var ui].
  rewrite Hn. cbn [res_map id world ref_var ui].
  rewrite Hk. cbn [res_map id world ref_var ui].
  rewrite Ha. reflexivity.
Qed.

Lemma handleGetBalance_run (E : Env) (s : Machine E) a :
  mountaintopsAddress (ui s) = Some a -> truthy a = true ->
  handleGetBalance E s
  = match fetchBSVBalance E a s with
    | (Ok b, s1, t1) =>
        (Ok tt,
         {| world := world s1; ref_var := ref_var s1;
            ui := {| mountaintopsAddress := mountaintopsAddress (ui s1); balance := b;
                     recipientAddress := recipientAddress (ui s1); amount := amount (ui s1);
                     transactions := transactions (ui s1); audioRef := audioRef (ui s1) |} |},
         t1)
    | (Thrown e, s1, t1) => (Thrown e, s1, t1)
    end.
Proof.
  intros Ha Ht. unfold handleGetBalance, bind at 1, get_ui.
  rewrite Ha, Ht. unfold bind, setBalance, set_ui.
  destruct (fetchBSVBalance E a s) as [[[b|e] s1] t1]; cbn; rewrite ?app_nil_r; reflexivity.
Qed.

(** X12. The balance is queried for the address that was derived: after
    the address handler has stored a non-empty address, the balance
    handler's one request goes to the balance endpoint of exactly that
    address, on the network the wallet reports at that moment. *)
Theorem balance_is_queried_for_derived_address
    (E : Env) (s : Machine E) n pk a w1 w2 n' w3 :
  client_getNetwork E (world s) = (Ok n, w1) ->
  client_getPublicKey E mountaintops_key w1 = (Ok pk, w2) ->
  PublicKey_toAddress E pk n = Ok a ->
  truthy a = true ->
  client_getNetwork E w2 = (Ok n', w3) ->
  let s1 := final (handleViewAddress E s) in
  mountaintopsAddress (ui s1) = Some a /\
  fetches (transcript (handleGetBalance E s1))
  = [woc_url (balance_segment n') a "balance"].
Proof.
  intros Hn Hk Ha Ht Hn' s1. subst s1.
  rewrite (handleViewAddress_run E s n pk a w1 w2 Hn Hk Ha).
  cbn [final fst snd ui mountaintopsAddress]. split; [reflexivity|].
  rewrite (handleGetBalance_run E _ a); [|reflexivity|exact Ht].
  unfold fetchBSVBalance, getRealWalletNetwork, bind, call, ret.
  cbn [world ref_var ui]. rewrite Hn'. cbn [res_map id world ref_var ui].
  unfold balance_segment.
  repeat next_answer; reflexivity.
Qed.

Lemma balance_is_queried_for_derived_address_witness :
  let E := scripted nothing_unspent in
  let s1 := final (handleViewAddress E (boot nothing_unspent initial_ui)) in
  mountaintopsAddress (ui s1) = Some "m02abc" /\
  fetches (transcript (handleGetBalance E s1))
  = ["https://api.whatsonchain.com/v1/bsv/test/address/m02abc/balance"].
Proof.
  intros E s1.
  exact (balance_is_queried_for_derived_address E (boot nothing_unspent initial_ui)
           testnet "02abc" "m02abc" tt tt testnet tt
           eq_refl eq_refl eq_refl eq_refl eq_refl).
Defined.

(** ** A total of zero *)

Lemma eqb_zero_inv (x : float) :
  (x =? 0)%float = true -> exists sg, Prim2SF x = S754_zero sg.
Proof.
  rewrite FloatAxioms.eqb_spec, float_zero_spec.
  destruct (Prim2SF x) as [sg|sg| |sg m e]; try destruct sg; try discriminate; eauto.
Qed.

(** A zero total is a zero balance: dividing a zero by 100000000 gives
    a zero. *)
Lemma zero_total_zero_balance (x : float) :
  (x =? 0)%float = true ->
  (x / 100000000 =? 0)%float = true /\ (x / 100000000 <? 0)%float = false.
Proof.
  intros Hx. apply eqb_zero_inv in Hx as [sg Hx].
  rewrite FloatAxioms.eqb_spec, FloatAxioms.ltb_spec, FloatAxioms.div_spec, Hx,
    float_zero_spec.
  destruct sg; split; reflexivity.
Qed.

(** X13. When the explorer reports a total of zero for the held address,
    the balance handler stores a zero balance, and the import that
    follows is refused with the message that there is no money to
    import, without any fetch or wallet call. *)
Theorem zero_total_blocks_import (E : Env) rev (s : Machine E) a n w1 resp w2 payload w3 :
  mountaintopsAddress (ui s) = Some a ->
  truthy a = true ->
  client_getNetwork E (world s) = (Ok n, w1) ->
  fetch E (woc_url (balance_segment n) a "balance") w1 = (Ok resp, w2) ->
  json_balance E resp w2 = (Ok payload, w3) ->
  (confirmed payload + unconfirmed payload =? 0)%float = true ->
  let s1 := final (handleGetBalance E s) in
  (balance (ui s1) =? 0)%float = true /\
  handleImportFunds E rev s1 = (Ok tt, s1, [Alert "No money to import!"]).
Proof.
  intros Ha Ht Hn Hf Hj Hzero s1. subst s1.
  rewrite (handleGetBalance_run _ _ a Ha Ht).
  rewrite (fetchBSVBalance_run E s a n w1 resp w2 payload w3 Hn Hf Hj).
  cbn [final fst snd ui balance world ref_var].
  destruct (zero_total_zero_balance _ Hzero) as [Heq Hlt].
  split; [exact Heq|].
  rewrite handleImportFunds_refused.
  - unfold refusal. cbn [ui mountaintopsAddress balance].
    rewrite Ha. cbn [truthy_opt]. rewrite Ht, Hlt. reflexivity.
  - unfold import_guard. cbn [ui mountaintopsAddress balance].
    rewrite Heq. now rewrite andb_false_r.
Qed.

Lemma zero_total_blocks_import_witness :
  let sc := {| sc_network := Ok mainnet; sc_publicKey := Ok "02abc";
               sc_balance := Ok {| confirmed := 0; unconfirmed := 0 |};
               sc_unspent := Ok []; sc_created := sc_created three_utxos;
               sc_sign := sc_sign three_utxos; sc_signed := Ok tt;
               sc_aborted := Ok tt |} in
  let s1 := final (handleGetBalance (scripted sc) (boot sc funded)) in
  transcript (handleImportFunds (scripted sc) Rev1 s1) = [Alert "No money to import!"].
Proof.
  intros sc s1.
  destruct (zero_total_blocks_import (scripted sc) Rev1 (boot sc funded) "1abc" mainnet
              tt tt tt {| confirmed := 0; unconfirmed := 0 |} tt
              eq_refl eq_refl eq_refl eq_refl eq_refl eq_refl) as [_ H].
  unfold s1. rewrite H. reflexivity.
Defined.

(** * Further properties of the send flow *)


Lemma shout_frame_example :
  let E := scripted three_utxos in
  let s := boot three_utxos (paying "1A1zP1eP5QGefi2DMPTfTL5SLmv7DivfNa" "0.01") in
  transactions (ui (final (handleShoutBSV E Rev1 s)))
  = [ {| rec_txid := "f00d"; rec_to := "1A1zP1eP5QGefi2DMPTfTL5SLmv7DivfNa";
         rec_amount := "" |} ] /\
  recipientAddress (ui (final (handleShoutBSV E Rev1 s))) = "".
Proof. split; reflexivity. Qed.

(** X15. A send asks the wallet to create at most one action, and that
    action is the payment of the requested amount to the locking script
    of the recipient; it never fetches, signs, aborts or asks for a key,
    and leaves the component state alone. A transaction id is returned
    only as the id of the wallet's answer to that request. When the
    wallet reports testnet, no address is rejected. *)
Theorem send_creates_at_most_one_action (E : Env) rev (s : Machine E) to amount :
  let run := sendBSV E rev to amount s in
  ui (final run) = ui s /\
  (created_actions (transcript run) = [] \/
   exists ls, P2PKH_lock E to = Ok ls /\
              created_actions (transcript run) = [payment_args ls amount]) /\
  fetches (transcript run) = [] /\ submissions (transcript run) = [] /\
  abort_calls (transcript run) = [] /\ key_requests (transcript run) = [] /\
  (forall id, outcome run = Ok (Some id) ->
     exists args res, CreateAction args (Ok res) ∈ transcript run /\
                      txid res = Some id) /\
  (network_queries (transcript run) = [Ok testnet] -> alerts (transcript run) = []).
Proof.
  intros run. subst run.
  unfold_ops.
  unfold fetches, created_actions, submissions, abort_calls, key_requests,
    network_queries, alerts.
  cbn [res_map id app].
  repeat next_answer; cbn; (split; [reflexivity|]);
    (split; [first [left; reflexivity | right; eexists; split; reflexivity]|]);
    do 4 (split; [reflexivity|]);
    (split;
       [ intros id Hid;
         first [ discriminate Hid
               | injection Hid as Hid; eexists; eexists; split;
                 [ apply elem_of_cons; right; apply elem_of_cons; left; reflexivity
                 | exact Hid ] ]
       | intros Hq; first [reflexivity | discriminate Hq | discriminate] ]).
Qed.

(** * Further properties of the balance query *)

(** X16. The balance query stops at its first failure: when it throws,
    the exception is the answer of the last call it made and every call
    before it had succeeded; when it returns, all three calls (network,
    fetch, body) succeeded. It shows no alert, creates no action and
    leaves the component state alone. *)
Theorem balance_query_stops_at_first_failure (E : Env) (s : Machine E) address :
  let run := fetchBSVBalance E address s in
  ui (final run) = ui s /\ alerts (transcript run) = [] /\
  created_actions (transcript run) = [] /\ key_requests (transcript run) = [] /\
  match outcome run with
  | Thrown e =>
      failures (transcript run) = [e] /\
      (failure <$> last (transcript run)) = Some (Some e) /\
      length (transcript run) <= 3
  | Ok _ => failures (transcript run) = [] /\ length (transcript run) = 3
  end.
Proof.
  intros run. subst run.
  unfold_ops. unfold alerts, created_actions, key_requests, failures.
  cbn [res_map id app].
  repeat next_answer; cbn in *; try discriminate;
    repeat match goal with H : Thrown _ = Thrown _ |- _ => injection H as <- end;
    repeat split; auto; lia.
Qed.

(** * The background music *)

(** X17. Toggling the background music: without an audio element nothing
    happens; the flag goes from unset to set only by a [play()] that
    resolved, and a rejected [play()] leaves it unset and alerts;
    pausing always clears it. Two toggles in a row restore the state
    whenever the first one changed it and the second [play()], if any,
    resolves. *)
Theorem toggle_music (p1 p2 : bool) (m : MusicState) :
  let '(m1, t1) := toggleBackgroundMusic p1 m in
  let '(m2, t2) := toggleBackgroundMusic p2 m1 in
  bgAudioRef m1 = bgAudioRef m /\
  (bgAudioRef m = false -> m1 = m /\ t1 = []) /\
  (isMusicPlaying m = false -> isMusicPlaying m1 = true -> t1 = [BgPlay true]) /\
  (BgPlay false ∈ t1 -> isMusicPlaying m1 = false /\ length t1 = 2) /\
  (isMusicPlaying m = true -> bgAudioRef m = true ->
     isMusicPlaying m1 = false /\ t1 = [BgPause]) /\
  (m1 <> m -> p2 = true -> m2 = m).
Proof.
  destruct m as [[] []], p1, p2; cbn; repeat split; intros;
    try reflexivity; try discriminate; try congruence;
    repeat match goal with
      | H : _ ∈ _ :: _ |- _ => apply elem_of_cons in H as [H|H]; [discriminate|]
      | H : _ ∈ [] |- _ => inversion H
      end.
Qed.
